(** * tinyLedger: an in-memory ledger service, verified against its specification

    Shallow embedding of [app/schemas.py], [app/tinyLedger.py] and the
    endpoints of [app/handler.py].

    - Python [float] is IEEE 754 binary64; it is modelled by the Standard
      Library's [spec_float] with precision 53 and maximal exponent 1024,
      so that rounding, infinities and NaN behave as they do in Python.
    - The two dictionaries of [LedgerService] are finite maps keyed by
      strings.
    - Methods are computations in a state-and-exception monad: a raised
      exception leaves the state as it was at the point of the [raise],
      exactly as a Python exception leaves the object it was raised from. *)

From Stdlib Require Import ZArith Floats.SpecFloat.
From stdpp Require Import gmap strings list fin_maps pretty.

(** ** Python floats *)

Module Float.
Definition prec : Z := 53.
Definition emax : Z := 1024.

Definition float : Type := spec_float.

(** The literal [0.0], also the value the integer literal [0] takes
    when it is compared with a float. *)
Definition zero : float := S754_zero false.

Definition add : float → float → float := SFadd prec emax.
Definition sub : float → float → float := SFsub prec emax.
Definition ltb : float → float → bool := SFltb.
Definition leb : float → float → bool := SFleb.
Definition eqb : float → float → bool := SFeqb.

(** [float(z)] for an integer [z], rounded to nearest, ties to even. *)
Definition of_int (z : Z) : float := binary_normalize prec emax z 0 false.

(** The float nearest to [m * 2^e]. *)
Definition of_scaled (m e : Z) : float := binary_normalize prec emax m e false.

(** The value is a well-formed binary64 number. *)
Definition valid (x : float) : bool := valid_binary prec emax x.
End Float.

Abbreviation float := Float.float.

(** ** app/schemas.py *)

(** [datetime.fromtimestamp(time())]: the wall clock, in microseconds
    since the epoch. *)
Definition datetime : Type := Z.

Module schemas.
Inductive TransactionType : Type := DEPOSIT | WITHDRAWAL.

Record Transaction : Type := {
  id : string;
  account_id : string;
  type : TransactionType;
  amount : float;
  description : option string;
  timestamp : datetime
}.
End schemas.

Abbreviation TransactionType := schemas.TransactionType.
Abbreviation DEPOSIT := schemas.DEPOSIT.
Abbreviation WITHDRAWAL := schemas.WITHDRAWAL.
Abbreviation Transaction := schemas.Transaction.

Global Instance TransactionType_eq_dec : EqDecision TransactionType.
Proof. solve_decision. Defined.

(** ** Exceptions *)

(** The text of an exception, kept structured: each constructor stands for
    one f-string of the source. *)
Inductive detail : Type :=
  | AccountDoesNotExist (account_id : string)
      (* f"Account {account_id} does not exist." *)
  | AmountMustBePositive (amount : float)
      (* f"Transaction amount must be positive: {amount}" *)
  | InsufficientFunds (account_id : string) (amount : float).
      (* f"Insufficient funds for withdrawal: ..." *)

Inductive exception : Type :=
  | ValueError (msg : detail)
  | InsufficientFundsError (msg : detail)
  | KeyError (key : string).

(** ** The state-and-exception monad of the service *)

Record LedgerService : Type := {
  _transactions : gmap string (list Transaction);
  _balances : gmap string float
}.

Inductive outcome (A : Type) : Type :=
  | Return (a : A)
  | Raise (e : exception).
Arguments Return {A} a.
Arguments Raise {A} e.

Definition M (A : Type) : Type := LedgerService → outcome A * LedgerService.

Definition ret {A} (a : A) : M A := λ self, (Return a, self).
Definition raise {A} (e : exception) : M A := λ self, (Raise e, self).
Definition bind {A B} (c : M A) (k : A → M B) : M B :=
  λ self,
    match c self with
    | (Return a, self') => k a self'
    | (Raise e, self') => (Raise e, self')
    end.
Definition get : M LedgerService := λ self, (Return self, self).
Definition put (self' : LedgerService) : M unit := λ _, (Return tt, self').

Declare Scope ledger_scope.
Delimit Scope ledger_scope with ledger.
Notation "'let*' x := c 'in' k" := (bind c (λ x, k))
  (at level 10, x name, c at level 100, k at level 200) : ledger_scope.
Notation "c ;;; k" := (bind c (λ _, k))
  (at level 100, k at level 200, right associativity) : ledger_scope.
Local Open Scope ledger_scope.

(** ** app/tinyLedger.py *)

(** [LedgerService()] *)
Definition __init__ : LedgerService :=
  {| _transactions := ∅; _balances := ∅ |}.

Section Ledger.

(** Python's built-in [hash] on strings: some function fixed for the
    lifetime of the process. *)
Variable hash : string → Z.

Definition _generate_transaction_id (account_id : string) : M string :=
  let* self := get in
  let transaction_number :=
    (length (default [] (self.(_transactions) !! account_id)) + 1)%nat in
  ret (pretty (hash account_id) +:+ "_" +:+ pretty transaction_number).

Definition _parse_transaction_request
    (account_id : string) (transaction_type : TransactionType)
    (amount : float) (transaction_timestamp : datetime)
    (description : option string) : M Transaction :=
  let* id := _generate_transaction_id account_id in
  ret {| schemas.id := id;
         schemas.account_id := account_id;
         schemas.type := transaction_type;
         schemas.amount := amount;
         schemas.description := description;
         schemas.timestamp := transaction_timestamp |}.

Definition _setup_account_if_not_exists (account_id : string) : M unit :=
  let* self := get in
  let transactions :=
    match self.(_transactions) !! account_id with
    | None => <[account_id := []]> (self.(_transactions))
    | Some _ => self.(_transactions)
    end in
  let balances :=
    match self.(_balances) !! account_id with
    | None => <[account_id := Float.zero]> (self.(_balances))
    | Some _ => self.(_balances)
    end in
  put {| _transactions := transactions; _balances := balances |}.

(** [self._transactions[k].append(t)] *)
Definition append_transaction (k : string) (t : Transaction) : M unit :=
  let* self := get in
  match self.(_transactions) !! k with
  | None => raise (KeyError k)
  | Some log =>
      put {| _transactions := <[k := log ++ [t]]> (self.(_transactions));
             _balances := self.(_balances) |}
  end.

(** [self._balances[k] = f(self._balances[k])], the shape of [+=] and [-=] *)
Definition update_balance (k : string) (f : float → float) : M unit :=
  let* self := get in
  match self.(_balances) !! k with
  | None => raise (KeyError k)
  | Some balance =>
      put {| _transactions := self.(_transactions);
             _balances := <[k := f balance]> (self.(_balances)) |}
  end.

(** The final [else: raise ValueError("Unknown transaction type")] of the
    source has no counterpart: [TransactionType] has two members. *)
Definition _record_transaction (transaction : Transaction) : M unit :=
  append_transaction transaction.(schemas.account_id) transaction ;;;
  match transaction.(schemas.type) with
  | DEPOSIT =>
      update_balance transaction.(schemas.account_id)
        (λ balance, Float.add balance transaction.(schemas.amount))
  | WITHDRAWAL =>
      update_balance transaction.(schemas.account_id)
        (λ balance, Float.sub balance transaction.(schemas.amount))
  end.

Definition _validate_transaction_amount (amount : float) : M unit :=
  if Float.leb amount Float.zero
  then raise (ValueError (AmountMustBePositive amount))
  else ret tt.

Definition _validate_withdrawal_is_possible (transaction : Transaction) : M unit :=
  let* self := get in
  match self.(_balances) !! transaction.(schemas.account_id) with
  | None =>
      raise (ValueError (AccountDoesNotExist transaction.(schemas.account_id)))
  | Some balance =>
      if Float.ltb balance transaction.(schemas.amount)
      then raise (InsufficientFundsError
                    (InsufficientFunds transaction.(schemas.account_id)
                                       transaction.(schemas.amount)))
      else ret tt
  end.

(** [current_timestamp] is the clock reading taken on entry. *)
Definition process_transaction
    (account_id : string) (transaction_type : TransactionType)
    (amount : float) (description : option string)
    (current_timestamp : datetime) : M unit :=
  (* Parsing *)
  let* transaction :=
    _parse_transaction_request
      account_id transaction_type amount current_timestamp description in
  (* Validation *)
  _validate_transaction_amount transaction.(schemas.amount) ;;;
  (if decide (transaction.(schemas.type) = WITHDRAWAL)
   then _validate_withdrawal_is_possible transaction
   else ret tt) ;;;
  (* Record transaction *)
  _setup_account_if_not_exists transaction.(schemas.account_id) ;;;
  _record_transaction transaction.

Definition get_balance (account_id : string) : M float :=
  let* self := get in
  match self.(_balances) !! account_id with
  | None => raise (ValueError (AccountDoesNotExist account_id))
  | Some balance => ret balance
  end.

(** The list returned is the stored one; no caller in the repository
    changes it. *)
Definition list_transactions (account_id : string) : M (list Transaction) :=
  let* self := get in
  match self.(_transactions) !! account_id with
  | None => raise (ValueError (AccountDoesNotExist account_id))
  | Some log => ret log
  end.

End Ledger.

(** ** app/handler.py: the transaction endpoint *)

Module handler.
Record TransactionRequest : Type := {
  amount : float;
  type : TransactionType;
  description : option string
}.

Record TransactionResponse : Type := { message : string }.
End handler.

Abbreviation TransactionRequest := handler.TransactionRequest.
Abbreviation TransactionResponse := handler.TransactionResponse.

Definition HTTP_201_CREATED : Z := 201.
Definition HTTP_400_BAD_REQUEST : Z := 400.
Definition HTTP_404_NOT_FOUND : Z := 404.

(** What an endpoint hands back to the framework: a body sent with the
    route's status code, an [HTTPException], or an exception that no
    [except] clause caught. *)
Inductive http_outcome (A : Type) : Type :=
  | Response (status_code : Z) (body : A)
  | HTTPException (status_code : Z) (err : detail)
  | Uncaught (e : exception).
Arguments Response {A} status_code body.
Arguments HTTPException {A} status_code err.
Arguments Uncaught {A} e.

Definition status_code {A} (r : http_outcome A) : option Z :=
  match r with
  | Response c _ => Some c
  | HTTPException c _ => Some c
  | Uncaught _ => None
  end.

Record LedgerHandler : Type := { ledgerService : LedgerService }.

Section Handler.
Variable hash : string → Z.

(** [POST /transactions/{account_id}]. The [except ValueError] clause
    comes first and [InsufficientFundsError] does not derive from
    [ValueError]; [KeyError] derives from [LookupError] and is caught by
    neither clause. *)
Definition create_transaction
    (account_id : string) (request : TransactionRequest)
    (current_timestamp : datetime) (self : LedgerHandler)
    : http_outcome TransactionResponse * LedgerHandler :=
  match process_transaction hash account_id
          request.(handler.type) request.(handler.amount)
          request.(handler.description) current_timestamp
          self.(ledgerService) with
  | (Return _, service) =>
      (Response HTTP_201_CREATED
         {| handler.message := "Transaction successfully recorded." |},
       {| ledgerService := service |})
  | (Raise (ValueError err), service) =>
      (HTTPException HTTP_404_NOT_FOUND err, {| ledgerService := service |})
  | (Raise (InsufficientFundsError err), service) =>
      (HTTPException HTTP_400_BAD_REQUEST err, {| ledgerService := service |})
  | (Raise (KeyError k), service) =>
      (Uncaught (KeyError k), {| ledgerService := service |})
  end.
End Handler.

(** ** Sequences of operations on one service *)

Inductive operation : Type :=
  | ProcessTransaction
      (account_id : string) (transaction_type : TransactionType)
      (amount : float) (description : option string)
      (current_timestamp : datetime)
  | GetBalance (account_id : string)
  | ListTransactions (account_id : string).

Section Runs.
Variable hash : string → Z.

(** The state an operation leaves behind, whether it returns or raises. *)
Definition step (op : operation) (self : LedgerService) : LedgerService :=
  match op with
  | ProcessTransaction account_id transaction_type amount description now =>
      (process_transaction hash account_id transaction_type amount
         description now self).2
  | GetBalance account_id => (get_balance account_id self).2
  | ListTransactions account_id => (list_transactions account_id self).2
  end.

(** The transaction an operation processed successfully, if any: the
    record that [process_transaction] built on entry, when the call
    returned normally. *)
Definition processed (op : operation) (self : LedgerService) : list Transaction :=
  match op with
  | ProcessTransaction account_id transaction_type amount description now =>
      match process_transaction hash account_id transaction_type amount
              description now self,
            _parse_transaction_request hash account_id transaction_type
              amount now description self with
      | (Return _, _), (Return transaction, _) => [transaction]
      | _, _ => []
      end
  | _ => []
  end.

(** A run threads the service through the operations and keeps, on the
    side, the transactions processed so far in processing order. *)
Definition exec (st : LedgerService * list Transaction) (op : operation)
    : LedgerService * list Transaction :=
  (step op st.1, st.2 ++ processed op st.1).

Definition run (ops : list operation) : LedgerService * list Transaction :=
  fold_left exec ops (__init__, []).

Definition state_after (ops : list operation) : LedgerService := (run ops).1.
Definition processed_in (ops : list operation) : list Transaction := (run ops).2.
End Runs.

(** ** Derived notions used by the statements *)

(** What one logged transaction does to a balance. *)
Definition apply_transaction (balance : float) (t : Transaction) : float :=
  match t.(schemas.type) with
  | DEPOSIT => Float.add balance t.(schemas.amount)
  | WITHDRAWAL => Float.sub balance t.(schemas.amount)
  end.

(** The balance obtained by replaying a log from [0.0]. *)
Definition running_total (log : list Transaction) : float :=
  fold_left apply_transaction log Float.zero.

(** Transactions of a history that belong to one account. *)
Definition of_account (account_id : string) (h : list Transaction) : list Transaction :=
  filter (λ t, t.(schemas.account_id) = account_id) h.

(** The identifier carrying sequence number [n] within an account. *)
Definition transaction_id (hash : string → Z) (account_id : string) (n : nat) : string :=
  pretty (hash account_id) +:+ "_" +:+ pretty n.

(** The record [process_transaction] builds on entry in state [self]. *)
Definition requested (hash : string → Z)
    (account_id : string) (transaction_type : TransactionType)
    (amount : float) (description : option string) (now : datetime)
    (self : LedgerService) : Transaction :=
  {| schemas.id :=
       transaction_id hash account_id
         (length (default [] (self.(_transactions) !! account_id)) + 1);
     schemas.account_id := account_id;
     schemas.type := transaction_type;
     schemas.amount := amount;
     schemas.description := description;
     schemas.timestamp := now |}.

(** The state after a transaction has been recorded. *)
Definition recorded (t : Transaction) (self : LedgerService) : LedgerService :=
  let k := t.(schemas.account_id) in
  {| _transactions :=
       <[k := default [] (self.(_transactions) !! k) ++ [t]]> (self.(_transactions));
     _balances :=
       <[k := apply_transaction (default Float.zero (self.(_balances) !! k)) t]>
         (self.(_balances)) |}.

(** The facts that tie a reachable state [self] to the history [h] of the
    transactions processed so far. *)
Record ledger_inv (hash : string → Z)
    (self : LedgerService) (h : list Transaction) : Prop := {
  inv_dom : ∀ k, self.(_transactions) !! k = None ↔ self.(_balances) !! k = None;
  inv_log : ∀ k, default [] (self.(_transactions) !! k) = of_account k h;
  inv_nonempty : ∀ k, self.(_transactions) !! k ≠ Some [];
  inv_balance : ∀ k balance,
    self.(_balances) !! k = Some balance →
    balance = running_total (default [] (self.(_transactions) !! k));
  inv_ids : ∀ k log i t,
    self.(_transactions) !! k = Some log → log !! i = Some t →
    t.(schemas.id) = transaction_id hash k (i + 1)
}.

(** ** The specification's reading of a balance *)

(** [sum(t.amount for t in log if t.type == ty)]: Python's [sum] adds from
    the left, starting at [0]. *)
Definition sum_amounts (ty : TransactionType) (log : list Transaction) : float :=
  fold_left Float.add
    (schemas.amount <$> filter (λ t, t.(schemas.type) = ty) log) Float.zero.

(** Sum of the deposits minus sum of the withdrawals of a log. *)
Definition deposits_minus_withdrawals (log : list Transaction) : float :=
  Float.sub (sum_amounts DEPOSIT log) (sum_amounts WITHDRAWAL log).

(** ** Concrete runs *)

Module Examples.
(** A stand-in for the interpreter's string hash. *)
Definition hash : string → Z := λ s, Z.of_nat (String.length s).

Definition deposit (account_id : string) (amount : float) : operation :=
  ProcessTransaction account_id DEPOSIT amount None 0%Z.
Definition withdraw (account_id : string) (amount : float) : operation :=
  ProcessTransaction account_id WITHDRAWAL amount None 0%Z.

(** [1e16], the float [1.0] and [9999999999999998.0]. *)
Definition f1e16 : float := Float.of_int 10000000000000000.
Definition f1 : float := Float.of_int 1.
Definition f9999999999999998 : float := Float.of_int 9999999999999998.

(** Deposit [1e16], then withdraw [1.0] twice. *)
Definition big_then_small : list operation :=
  [deposit "acc1" f1e16; withdraw "acc1" f1; withdraw "acc1" f1].

(** One deposit of [50.0]. *)
Definition one_deposit : list operation :=
  [deposit "acc1" (Float.of_int 50)].

Definition fresh_handler : LedgerHandler := {| ledgerService := __init__ |}.

Definition funded_handler : LedgerHandler :=
  {| ledgerService := state_after hash one_deposit |}.

Definition request (ty : TransactionType) (amount : float) : TransactionRequest :=
  {| handler.amount := amount; handler.type := ty; handler.description := None |}.
End Examples.

(** ** app/handler.py: the read endpoints *)

(** The status a route without [status_code] answers with. *)
Definition HTTP_200_OK : Z := 200.

Module endpoints.
Record BalanceResponse : Type := { balance : float }.

(** [GET /balance/{account_id}] *)
Definition get_balance (account_id : string) (self : LedgerHandler)
    : http_outcome BalanceResponse * LedgerHandler :=
  match get_balance account_id self.(ledgerService) with
  | (Return balance, service) =>
      (Response HTTP_200_OK {| balance := balance |},
       {| ledgerService := service |})
  | (Raise (ValueError err), service) =>
      (HTTPException HTTP_404_NOT_FOUND err, {| ledgerService := service |})
  | (Raise e, service) => (Uncaught e, {| ledgerService := service |})
  end.

(** [GET /transactions/{account_id}] *)
Definition list_transactions (account_id : string) (self : LedgerHandler)
    : http_outcome (list Transaction) * LedgerHandler :=
  match list_transactions account_id self.(ledgerService) with
  | (Return log, service) =>
      (Response HTTP_200_OK log, {| ledgerService := service |})
  | (Raise (ValueError err), service) =>
      (HTTPException HTTP_404_NOT_FOUND err, {| ledgerService := service |})
  | (Raise e, service) => (Uncaught e, {| ledgerService := service |})
  end.
End endpoints.

(** ** Further notions used by the statements *)

(** The operation is a call of [process_transaction]. *)
Definition is_process (op : operation) : bool :=
  match op with
  | ProcessTransaction _ _ _ _ _ => true
  | _ => false
  end.

(** The amount an operation carries, if any, is a well-formed binary64
    number, as every Python float is. *)
Definition valid_amount (op : operation) : bool :=
  match op with
  | ProcessTransaction _ _ amount _ _ => Float.valid amount
  | _ => true
  end.

(** [x < 0] does not hold: [x] is a zero, positive, or NaN. *)
Definition not_negative (x : float) : Prop := Float.ltb x Float.zero = false.

Definition nan : float := S754_nan.
Definition inf : float := S754_infinity false.

(** * Properties *)

(** ** The scenarios of tests/test_tinyLedger.py *)

Example test_multiple_deposits_balance_calculated_correctly :
  (get_balance "acc1"
     (state_after Examples.hash
        [Examples.deposit "acc1" (Float.of_int 100);
         Examples.deposit "acc1" (Float.of_int 50);
         Examples.deposit "acc1" (Float.of_scaled 51 (-1))])).1
  = Return (Float.of_scaled 351 (-1)).
Proof. vm_compute. reflexivity. Qed.

Example test_deposit_and_withdraw_balance_calculated_correctly :
  (get_balance "acc1"
     (state_after Examples.hash
        [Examples.deposit "acc1" (Float.of_int 200);
         Examples.withdraw "acc1" (Float.of_int 75);
         Examples.withdraw "acc1" (Float.of_int 25)])).1
  = Return (Float.of_int 100).
Proof. vm_compute. reflexivity. Qed.

Example test_withdrawal_with_insufficient_funds_raises_error :
  (process_transaction Examples.hash "acc1" WITHDRAWAL (Float.of_int 100) None 0%Z
     (state_after Examples.hash Examples.one_deposit)).1
  = Raise (InsufficientFundsError (InsufficientFunds "acc1" (Float.of_int 100))).
Proof. vm_compute. reflexivity. Qed.

Example test_withdrawal_from_nonexistent_account_raises_error :
  (process_transaction Examples.hash "acc1" WITHDRAWAL (Float.of_int 50) None 0%Z
     __init__).1
  = Raise (ValueError (AccountDoesNotExist "acc1")).
Proof. vm_compute. reflexivity. Qed.

Example test_process_transaction_creates_correct_transactions_ledger :
  let self :=
    state_after Examples.hash
      [Examples.deposit "acc1" (Float.of_int 150);
       Examples.withdraw "acc1" (Float.of_int 100);
       Examples.deposit "acc1" (Float.of_int 100);
       Examples.deposit "acc2" (Float.of_int 100)] in
  schemas.id <$> default [] (self.(_transactions) !! "acc1")
  = [pretty (Examples.hash "acc1") +:+ "_1";
     pretty (Examples.hash "acc1") +:+ "_2";
     pretty (Examples.hash "acc1") +:+ "_3"].
Proof. vm_compute. reflexivity. Qed.

(** ** Comparisons of floats *)

Lemma float_positive_not_leb_zero (x : float) :
  Float.ltb Float.zero x = true → Float.leb x Float.zero = false.
Proof. destruct x as [s|s| |s m e]; try destruct s; cbv; congruence. Qed.

(** ** One call of [process_transaction] *)

Section ProcessTransaction.
Variable hash : string → Z.

Lemma _parse_transaction_request_eq account_id ty amount now description self :
  _parse_transaction_request hash account_id ty amount now description self
  = (Return (requested hash account_id ty amount description now self), self).
Proof. reflexivity. Qed.

Lemma _setup_then_record t self :
  (_setup_account_if_not_exists (schemas.account_id t) ;;; _record_transaction t) self
  = (Return tt, recorded t self).
Proof.
  unfold _setup_account_if_not_exists, _record_transaction, append_transaction,
    update_balance, recorded, apply_transaction, bind, get, put, raise.
  destruct self as [txs bals]; simpl.
  destruct (txs !! schemas.account_id t) as [log|] eqn:Htx;
    destruct (bals !! schemas.account_id t) as [b|] eqn:Hb;
    simpl; rewrite ?Htx, ?Hb, ?lookup_insert_eq; simpl;
    destruct (schemas.type t); simpl;
    rewrite ?Hb, ?lookup_insert_eq, ?insert_insert_eq; reflexivity.
Qed.

(** The four ways a call can go, in the order the source tests them. *)
Lemma process_transaction_eq account_id ty amount description now self :
  process_transaction hash account_id ty amount description now self =
    let t := requested hash account_id ty amount description now self in
    if Float.leb amount Float.zero
    then (Raise (ValueError (AmountMustBePositive amount)), self)
    else
      match ty, self.(_balances) !! account_id with
      | WITHDRAWAL, None =>
          (Raise (ValueError (AccountDoesNotExist account_id)), self)
      | WITHDRAWAL, Some balance =>
          if Float.ltb balance amount
          then (Raise (InsufficientFundsError
                         (InsufficientFunds account_id amount)), self)
          else (Return tt, recorded t self)
      | DEPOSIT, _ => (Return tt, recorded t self)
      end.
Proof.
  unfold process_transaction. unfold bind at 1.
  rewrite _parse_transaction_request_eq. cbv zeta.
  pose proof (_setup_then_record
                (requested hash account_id ty amount description now self) self) as Hrec.
  set (t := requested hash account_id ty amount description now self) in *.
  change (schemas.amount t) with amount.
  change (schemas.type t) with ty.
  change (schemas.account_id t) with account_id in *.
  unfold bind at 1, _validate_transaction_amount.
  destruct (Float.leb amount Float.zero); [reflexivity|].
  unfold ret at 1. unfold bind at 1.
  destruct ty; simpl.
  - exact Hrec.
  - unfold _validate_withdrawal_is_possible, bind at 1, get.
    change (schemas.amount t) with amount.
    change (schemas.account_id t) with account_id.
    destruct (_balances self !! account_id) as [b|]; [|reflexivity].
    destruct (Float.ltb b amount); [reflexivity|].
    exact Hrec.
Qed.

(** A call either leaves the service as it was, or records the
    transaction it was asked for. *)
Lemma process_transaction_outcome account_id ty amount description now self :
  let r := process_transaction hash account_id ty amount description now self in
  (∃ e, r = (Raise e, self)) ∨
  r = (Return tt,
       recorded (requested hash account_id ty amount description now self) self).
Proof.
  cbv zeta. rewrite process_transaction_eq. cbv zeta.
  destruct (Float.leb amount Float.zero); [left; eauto|].
  destruct ty; [right; reflexivity|].
  destruct (_balances self !! account_id) as [b|]; [|left; eauto].
  destruct (Float.ltb b amount); [left; eauto | right; reflexivity].
Qed.
End ProcessTransaction.

(** C4: whatever the state, the account and the transaction type, a call
    with [amount <= 0] raises the [ValueError] that reports a non-positive
    amount and leaves the service unchanged; since nothing is assumed of
    the account, this check precedes the existence and funds checks. *)
Theorem nonpositive_amount_rejected
    (hash : string → Z) (account_id : string) (ty : TransactionType)
    (amount : float) (description : option string) (now : datetime)
    (self : LedgerService) :
  Float.leb amount Float.zero = true →
  process_transaction hash account_id ty amount description now self
  = (Raise (ValueError (AmountMustBePositive amount)), self).
Proof.
  intros Hle. rewrite process_transaction_eq. cbv zeta. rewrite Hle. reflexivity.
Qed.

Lemma nonpositive_amount_rejected_witness :
  Float.leb (Float.of_int (-20)) Float.zero = true ∧
  process_transaction Examples.hash "acc1" DEPOSIT (Float.of_int (-20)) None 0%Z __init__
  = (Raise (ValueError (AmountMustBePositive (Float.of_int (-20)))), __init__).
Proof.
  split; [reflexivity|].
  apply (nonpositive_amount_rejected Examples.hash "acc1" DEPOSIT
           (Float.of_int (-20)) None 0%Z __init__).
  reflexivity.
Defined.

(** C2: in any state where the account has a balance, a withdrawal of a
    positive amount that exceeds that balance raises
    [InsufficientFundsError] and leaves the whole service unchanged. *)
Theorem withdrawal_over_balance_rejected
    (hash : string → Z) (account_id : string) (amount balance : float)
    (description : option string) (now : datetime) (self : LedgerService) :
  self.(_balances) !! account_id = Some balance →
  Float.ltb Float.zero amount = true →
  Float.ltb balance amount = true →
  process_transaction hash account_id WITHDRAWAL amount description now self
  = (Raise (InsufficientFundsError (InsufficientFunds account_id amount)), self).
Proof.
  intros Hbal Hpos Hlt. rewrite process_transaction_eq. cbv zeta.
  rewrite (float_positive_not_leb_zero _ Hpos), Hbal, Hlt. reflexivity.
Qed.

Lemma withdrawal_over_balance_rejected_witness :
  let self := state_after Examples.hash Examples.one_deposit in
  process_transaction Examples.hash "acc1" WITHDRAWAL (Float.of_int 100) None 0%Z self
  = (Raise (InsufficientFundsError (InsufficientFunds "acc1" (Float.of_int 100))), self).
Proof.
  cbv zeta.
  apply (withdrawal_over_balance_rejected Examples.hash "acc1"
           (Float.of_int 100) (Float.of_int 50) None 0%Z
           (state_after Examples.hash Examples.one_deposit)).
  - vm_compute. reflexivity.
  - reflexivity.
  - reflexivity.
Defined.

(** C5: in any state where the account has no balance entry, a withdrawal
    of a positive amount raises the [ValueError] that reports a missing
    account, leaves the service unchanged, and so does not create the
    account. *)
Theorem withdrawal_unknown_account_rejected
    (hash : string → Z) (account_id : string) (amount : float)
    (description : option string) (now : datetime) (self : LedgerService) :
  self.(_balances) !! account_id = None →
  Float.ltb Float.zero amount = true →
  let r := process_transaction hash account_id WITHDRAWAL amount description now self in
  r = (Raise (ValueError (AccountDoesNotExist account_id)), self) ∧
  r.2.(_balances) !! account_id = None ∧
  r.2.(_transactions) !! account_id = self.(_transactions) !! account_id.
Proof.
  intros Hbal Hpos. cbv zeta. rewrite process_transaction_eq. cbv zeta.
  rewrite (float_positive_not_leb_zero _ Hpos), Hbal. simpl. auto.
Qed.

Lemma withdrawal_unknown_account_rejected_witness :
  let r := process_transaction Examples.hash "acc1" WITHDRAWAL
             (Float.of_int 50) None 0%Z __init__ in
  r = (Raise (ValueError (AccountDoesNotExist "acc1")), __init__) ∧
  r.2.(_balances) !! "acc1" = None ∧
  r.2.(_transactions) !! "acc1" = __init__.(_transactions) !! "acc1".
Proof.
  apply (withdrawal_unknown_account_rejected Examples.hash "acc1"
           (Float.of_int 50) None 0%Z __init__).
  - reflexivity.
  - reflexivity.
Defined.

(** C9: a call on account [account_id] that returns normally leaves the
    balance and the log of every other account as they were. *)
Theorem process_transaction_frame
    (hash : string → Z) (account_id other : string) (ty : TransactionType)
    (amount : float) (description : option string) (now : datetime)
    (self self' : LedgerService) :
  process_transaction hash account_id ty amount description now self
  = (Return tt, self') →
  other ≠ account_id →
  self'.(_balances) !! other = self.(_balances) !! other ∧
  self'.(_transactions) !! other = self.(_transactions) !! other.
Proof.
  intros Hcall Hne.
  destruct (process_transaction_outcome hash account_id ty amount description now self)
    as [[e He]|Hok]; rewrite Hcall in *.
  - discriminate.
  - injection Hok as ->. unfold recorded. simpl.
    rewrite !lookup_insert_ne by congruence. auto.
Qed.

Lemma process_transaction_frame_witness :
  let self := state_after Examples.hash Examples.one_deposit in
  let self' := (process_transaction Examples.hash "acc2" DEPOSIT
                  (Float.of_int 100) None 0%Z self).2 in
  self'.(_balances) !! "acc1" = self.(_balances) !! "acc1" ∧
  self'.(_transactions) !! "acc1" = self.(_transactions) !! "acc1".
Proof.
  cbv zeta.
  apply (process_transaction_frame Examples.hash "acc2" "acc1" DEPOSIT
           (Float.of_int 100) None 0%Z).
  - rewrite process_transaction_eq. reflexivity.
  - discriminate.
Defined.

(** ** Runs of operations *)

Section RunProperties.
Variable hash : string → Z.

Lemma run_snoc ops op :
  run hash (ops ++ [op]) = exec hash (run hash ops) op.
Proof. unfold run. rewrite fold_left_app. reflexivity. Qed.

(** An operation changes nothing and processes nothing, or records
    exactly the transaction it reports, numbered after the log it found. *)
Lemma step_processed op self :
  (step hash op self = self ∧ processed hash op self = []) ∨
  (∃ t, step hash op self = recorded t self ∧
        processed hash op self = [t] ∧
        t.(schemas.id) =
          transaction_id hash t.(schemas.account_id)
            (length (default [] (self.(_transactions) !! t.(schemas.account_id))) + 1)).
Proof.
  destruct op as [a ty amount d now|a|a]; unfold step, processed.
  - rewrite _parse_transaction_request_eq.
    destruct (process_transaction_outcome hash a ty amount d now self)
      as [[e He]|Hok].
    + left. rewrite He. auto.
    + right. rewrite Hok. eexists. repeat split.
  - left. unfold get_balance, bind, get.
    destruct (_balances self !! a); auto.
  - left. unfold list_transactions, bind, get.
    destruct (_transactions self !! a); auto.
Qed.

Lemma ledger_inv_init : ledger_inv hash __init__ [].
Proof.
  split; simpl; intros *; rewrite ?lookup_empty; try done.
Qed.

Lemma ledger_inv_recorded self h t :
  ledger_inv hash self h →
  t.(schemas.id) =
    transaction_id hash t.(schemas.account_id)
      (length (default [] (self.(_transactions) !! t.(schemas.account_id))) + 1) →
  ledger_inv hash (recorded t self) (h ++ [t]).
Proof.
  intros [Hdom Hlog Hne Hbal Hids] Hid.
  set (a := schemas.account_id t) in *.
  assert (Hof : ∀ k, of_account k (h ++ [t])
                     = of_account k h ++ (if decide (a = k) then [t] else [])).
  { intros k. unfold of_account. rewrite filter_app, filter_cons, filter_nil.
    reflexivity. }
  split; unfold recorded; fold a; simpl.
  - intros k. destruct (decide (a = k)) as [<-|Hk].
    + rewrite !lookup_insert_eq. split; discriminate.
    + rewrite !lookup_insert_ne by done. apply Hdom.
  - intros k. rewrite Hof. destruct (decide (a = k)) as [<-|Hk].
    + rewrite lookup_insert_eq. simpl. rewrite Hlog. reflexivity.
    + rewrite lookup_insert_ne by done. rewrite Hlog, app_nil_r. reflexivity.
  - intros k. destruct (decide (a = k)) as [<-|Hk].
    + rewrite lookup_insert_eq. intros [= Heq].
      apply app_eq_nil in Heq as [_ [=]].
    + rewrite lookup_insert_ne by done. apply Hne.
  - intros k b. destruct (decide (a = k)) as [<-|Hk].
    + rewrite !lookup_insert_eq. intros [= <-]. simpl.
      unfold running_total. rewrite fold_left_app. simpl. f_equal.
      destruct (_balances self !! a) as [b0|] eqn:Hb0; simpl.
      * apply (Hbal a b0 Hb0).
      * apply Hdom in Hb0. rewrite Hb0. reflexivity.
    + rewrite !lookup_insert_ne by done. apply Hbal.
  - intros k log i t'. destruct (decide (a = k)) as [<-|Hk].
    + rewrite lookup_insert_eq. intros [= <-] Hi.
      apply lookup_app_Some in Hi as [Hi|[Hlen Hi]].
      * destruct (_transactions self !! a) as [l|] eqn:Hl; simpl in Hi.
        -- apply (Hids a l i t' Hl Hi).
        -- rewrite lookup_nil in Hi. discriminate.
      * apply list_lookup_singleton_Some in Hi as [Hz <-].
        rewrite Hid. f_equal. lia.
    + rewrite lookup_insert_ne by done. apply Hids.
Qed.

Lemma run_inv ops :
  ledger_inv hash (state_after hash ops) (processed_in hash ops).
Proof.
  unfold state_after, processed_in.
  induction ops as [|op ops IH] using rev_ind.
  - apply ledger_inv_init.
  - rewrite run_snoc. unfold exec. simpl.
    destruct (step_processed op (run hash ops).1)
      as [[-> ->]|(t & -> & -> & Hid)].
    + rewrite app_nil_r. exact IH.
    + apply ledger_inv_recorded; assumption.
Qed.

Lemma transaction_id_inj k n m :
  transaction_id hash k n = transaction_id hash k m → n = m.
Proof.
  unfold transaction_id. intros H.
  apply String.app_inj in H. apply String.app_inj in H.
  apply (inj pretty) in H. exact H.
Qed.
End RunProperties.

Lemma never_processed_iff (hash : string → Z) ops k :
  of_account k (processed_in hash ops) = [] ↔
  (state_after hash ops).(_transactions) !! k = None.
Proof.
  destruct (run_inv hash ops) as [_ Hlog Hne _ _].
  specialize (Hlog k). specialize (Hne k).
  destruct (_transactions (state_after hash ops) !! k) as [l|]; simpl in Hlog.
  - rewrite <- Hlog. split; [intros ->; done | discriminate].
  - rewrite <- Hlog. done.
Qed.

(** C10: after any sequence of operations on a fresh service, the balances
    map and the transaction-log map have the same keys, so that
    [get_balance] and [list_transactions] return or raise together. *)
Theorem balances_and_logs_same_accounts (hash : string → Z) (ops : list operation) :
  let self := state_after hash ops in
  dom self.(_transactions) =@{gset string} dom self.(_balances) ∧
  ∀ account_id,
    (∃ balance, get_balance account_id self = (Return balance, self)) ↔
    (∃ log, list_transactions account_id self = (Return log, self)).
Proof.
  cbv zeta. destruct (run_inv hash ops) as [Hdom _ _ _ _]. split.
  - apply set_eq. intros k. rewrite !elem_of_dom, <- !not_eq_None_Some, Hdom. done.
  - intros k. specialize (Hdom k).
    unfold get_balance, list_transactions, bind, get, ret, raise.
    destruct (_balances (state_after hash ops) !! k) as [b|],
             (_transactions (state_after hash ops) !! k) as [l|].
    + split; eauto.
    + destruct Hdom as [Hd _]. discriminate Hd; reflexivity.
    + destruct Hdom as [_ Hd]. discriminate Hd; reflexivity.
    + split; intros [? [=]].
Qed.

(** C6: after any sequence of operations on a fresh service, [get_balance]
    and [list_transactions] raise the [ValueError] that reports a missing
    account exactly when the run processed no transaction for that
    account; otherwise [get_balance] returns the stored balance. *)
Theorem not_found_iff_never_processed
    (hash : string → Z) (ops : list operation) (account_id : string) :
  let self := state_after hash ops in
  let mine := of_account account_id (processed_in hash ops) in
  ((get_balance account_id self).1
     = Raise (ValueError (AccountDoesNotExist account_id)) ↔ mine = []) ∧
  ((list_transactions account_id self).1
     = Raise (ValueError (AccountDoesNotExist account_id)) ↔ mine = []) ∧
  (mine ≠ [] →
   ∃ balance, self.(_balances) !! account_id = Some balance ∧
              get_balance account_id self = (Return balance, self)).
Proof.
  cbv zeta. rewrite (never_processed_iff hash ops account_id).
  destruct (run_inv hash ops) as [Hdom _ _ _ _]. specialize (Hdom account_id).
  unfold get_balance, list_transactions, bind, get, ret, raise.
  destruct (_transactions (state_after hash ops) !! account_id) as [l|];
    destruct (_balances (state_after hash ops) !! account_id) as [b|]; simpl.
  - repeat split; try discriminate. eauto.
  - destruct Hdom as [_ Hd]. discriminate Hd; reflexivity.
  - destruct Hdom as [Hd _]. discriminate Hd; reflexivity.
  - repeat split; try done.
Qed.

Lemma not_found_iff_never_processed_witness :
  ∃ balance,
    (state_after Examples.hash Examples.big_then_small).(_balances) !! "acc1"
      = Some balance ∧
    get_balance "acc1" (state_after Examples.hash Examples.big_then_small)
      = (Return balance, state_after Examples.hash Examples.big_then_small).
Proof.
  apply (proj2 (proj2 (not_found_iff_never_processed
                         Examples.hash Examples.big_then_small "acc1"))).
  vm_compute. discriminate.
Defined.

(** C7: after any sequence of operations on a fresh service,
    [list_transactions] on an account that has a log returns the
    transactions the run processed for that account, in processing order,
    and that list is not empty. *)
Theorem list_transactions_full_log
    (hash : string → Z) (ops : list operation) (account_id : string) :
  let self := state_after hash ops in
  is_Some (self.(_transactions) !! account_id) →
  list_transactions account_id self
    = (Return (of_account account_id (processed_in hash ops)), self) ∧
  of_account account_id (processed_in hash ops) ≠ [].
Proof.
  cbv zeta. intros [log Hlog].
  destruct (run_inv hash ops) as [_ Hl Hne _ _].
  specialize (Hl account_id). specialize (Hne account_id).
  unfold list_transactions, bind, get, ret.
  rewrite Hlog in *. simpl in Hl. subst log. split; [reflexivity|].
  intros Hnil. rewrite Hnil in Hne. done.
Qed.

Lemma list_transactions_full_log_witness :
  let self := state_after Examples.hash Examples.big_then_small in
  list_transactions "acc1" self
    = (Return (of_account "acc1"
                 (processed_in Examples.hash Examples.big_then_small)), self) ∧
  of_account "acc1" (processed_in Examples.hash Examples.big_then_small) ≠ [].
Proof.
  apply (list_transactions_full_log Examples.hash Examples.big_then_small "acc1").
  vm_compute. eexists. reflexivity.
Defined.

(** C8: after any sequence of operations on a fresh service, the
    transaction at position [i] (counted from 0) of an account's log has
    the id made of the account's hash, an underscore and the number
    [i + 1]; hence the ids of one log are pairwise distinct. *)
Theorem transaction_ids_sequential
    (hash : string → Z) (ops : list operation) (account_id : string)
    (log : list Transaction) :
  (state_after hash ops).(_transactions) !! account_id = Some log →
  (∀ i t, log !! i = Some t →
          t.(schemas.id) = pretty (hash account_id) +:+ "_" +:+ pretty (i + 1)%nat) ∧
  NoDup (schemas.id <$> log).
Proof.
  intros Hlog. destruct (run_inv hash ops) as [_ _ _ _ Hids].
  specialize (Hids account_id log). split.
  - intros i t Hi. apply (Hids i t Hlog Hi).
  - apply NoDup_alt. intros i j x Hi Hj.
    rewrite list_lookup_fmap in Hi, Hj.
    destruct (log !! i) as [ti|] eqn:Hti; [|discriminate].
    destruct (log !! j) as [tj|] eqn:Htj; [|discriminate].
    simpl in Hi, Hj. injection Hi as Hi. injection Hj as Hj.
    rewrite (Hids i ti Hlog Hti) in Hi. rewrite (Hids j tj Hlog Htj) in Hj.
    rewrite <- Hj in Hi. apply transaction_id_inj in Hi. lia.
Qed.

Lemma transaction_ids_sequential_witness :
  let log := of_account "acc1" (processed_in Examples.hash Examples.big_then_small) in
  (∀ i t, log !! i = Some t →
          t.(schemas.id) = pretty (Examples.hash "acc1") +:+ "_" +:+ pretty (i + 1)%nat) ∧
  NoDup (schemas.id <$> log).
Proof.
  apply (transaction_ids_sequential Examples.hash Examples.big_then_small "acc1").
  vm_compute. reflexivity.
Defined.

(** C1, as the code has it: after any sequence of operations on a fresh
    service, the stored balance of an account is the result of replaying
    its log from [0.0] in processing order, adding each deposit and
    subtracting each withdrawal in floating-point arithmetic. *)
Theorem balance_is_running_total
    (hash : string → Z) (ops : list operation) (account_id : string)
    (balance : float) :
  (state_after hash ops).(_balances) !! account_id = Some balance →
  ∃ log, (state_after hash ops).(_transactions) !! account_id = Some log ∧
         balance = running_total log.
Proof.
  intros Hb. destruct (run_inv hash ops) as [Hdom _ _ Hbal _].
  specialize (Hbal account_id balance Hb). specialize (Hdom account_id).
  destruct (_transactions (state_after hash ops) !! account_id) as [log|].
  - exists log. split; [reflexivity | exact Hbal].
  - destruct Hdom as [Hd _]. rewrite Hd in Hb by reflexivity. discriminate.
Qed.

Lemma balance_is_running_total_witness :
  ∃ log,
    (state_after Examples.hash Examples.big_then_small).(_transactions) !! "acc1"
      = Some log ∧
    Examples.f1e16 = running_total log.
Proof.
  apply (balance_is_running_total Examples.hash Examples.big_then_small "acc1"
           Examples.f1e16).
  vm_compute. reflexivity.
Defined.

(** C1, as stated, fails: deposit [1e16], then withdraw [1.0] twice. Each
    withdrawal rounds back to [1e16], so the balance stays [1e16], while
    the deposits minus the withdrawals of the log are
    [9999999999999998.0]. The three amounts are well-formed floats and all
    three calls return normally. *)
Lemma balance_differs_from_deposits_minus_withdrawals :
  let self := state_after Examples.hash Examples.big_then_small in
  Float.valid Examples.f1e16 = true ∧ Float.valid Examples.f1 = true ∧
  length (processed_in Examples.hash Examples.big_then_small) = 3 ∧
  self.(_balances) !! "acc1" = Some Examples.f1e16 ∧
  deposits_minus_withdrawals <$> (self.(_transactions) !! "acc1")
    = Some Examples.f9999999999999998 ∧
  Float.eqb Examples.f1e16 Examples.f9999999999999998 = false ∧
  Examples.f1e16 ≠ Examples.f9999999999999998.
Proof.
  cbv zeta. repeat split; try (vm_compute; reflexivity).
  vm_compute. discriminate.
Qed.

(** ** The transaction endpoint *)

(** C3, as the code has it: the endpoint answers 404 to a request whose
    amount is not positive and to a withdrawal of a positive amount on an
    account that has no balance, and 400 to a withdrawal of a positive
    amount that exceeds the balance. *)
Theorem create_transaction_error_status
    (hash : string → Z) (account_id : string) (request : TransactionRequest)
    (now : datetime) (self : LedgerHandler) :
  let r := (create_transaction hash account_id request now self).1 in
  let amount := request.(handler.amount) in
  let balances := self.(ledgerService).(_balances) in
  (Float.leb amount Float.zero = true → status_code r = Some 404%Z) ∧
  (request.(handler.type) = WITHDRAWAL →
   Float.ltb Float.zero amount = true →
   balances !! account_id = None →
   status_code r = Some 404%Z) ∧
  (∀ balance,
   request.(handler.type) = WITHDRAWAL →
   Float.ltb Float.zero amount = true →
   balances !! account_id = Some balance →
   Float.ltb balance amount = true →
   status_code r = Some 400%Z).
Proof.
  cbv zeta. unfold create_transaction. destruct request as [amount ty d]. simpl.
  repeat split.
  - intros Hle. rewrite process_transaction_eq. cbv zeta.
    rewrite Hle. reflexivity.
  - intros -> Hpos Hnone. rewrite process_transaction_eq. cbv zeta.
    rewrite (float_positive_not_leb_zero _ Hpos), Hnone. reflexivity.
  - intros balance -> Hpos Hsome Hlt. rewrite process_transaction_eq. cbv zeta.
    rewrite (float_positive_not_leb_zero _ Hpos), Hsome, Hlt. reflexivity.
Qed.

Lemma create_transaction_error_status_witness :
  status_code
    (create_transaction Examples.hash "acc1"
       (Examples.request DEPOSIT (Float.of_int (-20))) 0%Z
       Examples.fresh_handler).1 = Some 404%Z ∧
  status_code
    (create_transaction Examples.hash "acc1"
       (Examples.request WITHDRAWAL (Float.of_int 50)) 0%Z
       Examples.fresh_handler).1 = Some 404%Z ∧
  status_code
    (create_transaction Examples.hash "acc1"
       (Examples.request WITHDRAWAL (Float.of_int 100)) 0%Z
       Examples.funded_handler).1 = Some 400%Z.
Proof.
  split; [|split].
  - apply (proj1 (create_transaction_error_status Examples.hash "acc1"
             (Examples.request DEPOSIT (Float.of_int (-20))) 0%Z
             Examples.fresh_handler)).
    reflexivity.
  - apply (proj1 (proj2 (create_transaction_error_status Examples.hash "acc1"
             (Examples.request WITHDRAWAL (Float.of_int 50)) 0%Z
             Examples.fresh_handler))); reflexivity.
  - apply (proj2 (proj2 (create_transaction_error_status Examples.hash "acc1"
             (Examples.request WITHDRAWAL (Float.of_int 100)) 0%Z
             Examples.funded_handler)) (Float.of_int 50));
      vm_compute; reflexivity.
Defined.

(** C3, as stated, fails: a deposit of [-20.0] posted to a fresh service is
    answered with status 404, not 400. *)
Lemma nonpositive_amount_answers_404 :
  let request := Examples.request DEPOSIT (Float.of_int (-20)) in
  let r := (create_transaction Examples.hash "acc1" request 0%Z
              Examples.fresh_handler).1 in
  Float.leb request.(handler.amount) Float.zero = true ∧
  status_code r = Some 404%Z ∧
  status_code r ≠ Some 400%Z.
Proof.
  cbv zeta. repeat split; try (vm_compute; reflexivity).
  vm_compute. discriminate.
Qed.

(** * Further properties of the service *)

(** ** The outcomes of one call *)

Lemma float_zero_add (x : float) :
  Float.leb x Float.zero = false → Float.add Float.zero x = x.
Proof. destruct x as [s|s| |s m e]; try destruct s; cbv; congruence. Qed.

(** X1: a call of [process_transaction] that raises leaves the service
    exactly as it was, and what it raises is never a [KeyError]. *)
Theorem process_transaction_raise_is_atomic
    (hash : string → Z) (account_id : string) (ty : TransactionType)
    (amount : float) (description : option string) (now : datetime)
    (self self' : LedgerService) (e : exception) :
  process_transaction hash account_id ty amount description now self
  = (Raise e, self') →
  self' = self ∧ ∀ k, e ≠ KeyError k.
Proof.
  rewrite process_transaction_eq. cbv zeta.
  destruct (Float.leb amount Float.zero); [intros [= <- <-]; split; done|].
  destruct ty; [discriminate|].
  destruct (_balances self !! account_id) as [b|];
    [|intros [= <- <-]; split; done].
  destruct (Float.ltb b amount); [intros [= <- <-]; split; done | discriminate].
Qed.

Lemma process_transaction_raise_is_atomic_witness :
  __init__ = __init__ ∧
  ∀ k, ValueError (AccountDoesNotExist "acc1") ≠ KeyError k.
Proof.
  apply (process_transaction_raise_is_atomic Examples.hash "acc1" WITHDRAWAL
           (Float.of_int 50) None 0%Z __init__ __init__).
  reflexivity.
Defined.

(** X2: in any state, a deposit whose amount passes the validation is
    accepted; the account's balance becomes its former balance ([0.0] for
    a new account) plus the amount, and the requested transaction is put
    at the end of the account's log (a new log for a new account). *)
Theorem deposit_accepted
    (hash : string → Z) (account_id : string) (amount : float)
    (description : option string) (now : datetime) (self : LedgerService) :
  Float.leb amount Float.zero = false →
  let r := process_transaction hash account_id DEPOSIT amount description now self in
  r.1 = Return tt ∧
  r.2.(_balances) !! account_id
    = Some (Float.add (default Float.zero (self.(_balances) !! account_id)) amount) ∧
  r.2.(_transactions) !! account_id
    = Some (default [] (self.(_transactions) !! account_id)
            ++ [requested hash account_id DEPOSIT amount description now self]).
Proof.
  intros Hle. cbv zeta. rewrite process_transaction_eq. cbv zeta. rewrite Hle.
  unfold recorded. simpl. rewrite !lookup_insert_eq. auto.
Qed.

Lemma deposit_accepted_witness :
  let self := state_after Examples.hash Examples.one_deposit in
  let r := process_transaction Examples.hash "acc1" DEPOSIT (Float.of_int 25)
             None 0%Z self in
  r.1 = Return tt ∧
  r.2.(_balances) !! "acc1"
    = Some (Float.add (default Float.zero (self.(_balances) !! "acc1"))
              (Float.of_int 25)) ∧
  r.2.(_transactions) !! "acc1"
    = Some (default [] (self.(_transactions) !! "acc1")
            ++ [requested Examples.hash "acc1" DEPOSIT (Float.of_int 25) None 0%Z self]).
Proof.
  apply (deposit_accepted Examples.hash "acc1" (Float.of_int 25) None 0%Z
           (state_after Examples.hash Examples.one_deposit)).
  reflexivity.
Defined.

(** X3: in any state where the account has balance [b], a withdrawal whose
    amount passes the validation and for which [b < amount] does not hold
    is accepted; the balance becomes [b - amount] and the requested
    transaction is put at the end of the account's log. *)
Theorem withdrawal_accepted
    (hash : string → Z) (account_id : string) (amount b : float)
    (description : option string) (now : datetime) (self : LedgerService) :
  self.(_balances) !! account_id = Some b →
  Float.leb amount Float.zero = false →
  Float.ltb b amount = false →
  let r := process_transaction hash account_id WITHDRAWAL amount description now self in
  r.1 = Return tt ∧
  r.2.(_balances) !! account_id = Some (Float.sub b amount) ∧
  r.2.(_transactions) !! account_id
    = Some (default [] (self.(_transactions) !! account_id)
            ++ [requested hash account_id WITHDRAWAL amount description now self]).
Proof.
  intros Hb Hle Hlt. cbv zeta. rewrite process_transaction_eq. cbv zeta.
  rewrite Hle, Hb, Hlt. unfold recorded. simpl.
  rewrite !lookup_insert_eq, Hb. auto.
Qed.

Lemma withdrawal_accepted_witness :
  let self := state_after Examples.hash Examples.one_deposit in
  let r := process_transaction Examples.hash "acc1" WITHDRAWAL (Float.of_int 20)
             None 0%Z self in
  r.1 = Return tt ∧
  r.2.(_balances) !! "acc1" = Some (Float.sub (Float.of_int 50) (Float.of_int 20)) ∧
  r.2.(_transactions) !! "acc1"
    = Some (default [] (self.(_transactions) !! "acc1")
            ++ [requested Examples.hash "acc1" WITHDRAWAL (Float.of_int 20) None 0%Z self]).
Proof.
  apply (withdrawal_accepted Examples.hash "acc1" (Float.of_int 20) (Float.of_int 50)
           None 0%Z (state_after Examples.hash Examples.one_deposit)).
  - vm_compute. reflexivity.
  - reflexivity.
  - reflexivity.
Defined.

(** X4: the first deposit on an account unknown to both maps creates it:
    afterwards [get_balance] returns exactly the deposited amount and
    [list_transactions] returns the one transaction, numbered 1. *)
Theorem first_deposit_round_trip
    (hash : string → Z) (account_id : string) (amount : float)
    (description : option string) (now : datetime) (self : LedgerService) :
  self.(_balances) !! account_id = None →
  self.(_transactions) !! account_id = None →
  Float.leb amount Float.zero = false →
  let self' :=
    (process_transaction hash account_id DEPOSIT amount description now self).2 in
  get_balance account_id self' = (Return amount, self') ∧
  list_transactions account_id self'
    = (Return [{| schemas.id := pretty (hash account_id) +:+ "_1";
                  schemas.account_id := account_id;
                  schemas.type := DEPOSIT;
                  schemas.amount := amount;
                  schemas.description := description;
                  schemas.timestamp := now |}], self').
Proof.
  intros Hb Ht Hle. cbv zeta. rewrite process_transaction_eq. cbv zeta. rewrite Hle.
  unfold get_balance, list_transactions, bind, get, ret, recorded, requested,
    apply_transaction, transaction_id.
  cbn [fst snd _balances _transactions schemas.account_id schemas.type
       schemas.amount].
  rewrite !lookup_insert_eq, Hb, Ht.
  cbn [default from_option length app Nat.add].
  rewrite (float_zero_add _ Hle). split; reflexivity.
Qed.

Lemma first_deposit_round_trip_witness :
  let self' :=
    (process_transaction Examples.hash "acc1" DEPOSIT (Float.of_int 50) None 0%Z
       __init__).2 in
  get_balance "acc1" self' = (Return (Float.of_int 50), self') ∧
  list_transactions "acc1" self'
    = (Return [{| schemas.id := pretty (Examples.hash "acc1") +:+ "_1";
                  schemas.account_id := "acc1";
                  schemas.type := DEPOSIT;
                  schemas.amount := Float.of_int 50;
                  schemas.description := None;
                  schemas.timestamp := 0%Z |}], self').
Proof.
  apply (first_deposit_round_trip Examples.hash "acc1" (Float.of_int 50) None 0%Z
           __init__); reflexivity.
Defined.

(** ** The HTTP endpoints *)

(** X5: whatever the request and the state, the transaction endpoint
    answers 201, 400 or 404 (no exception escapes it), and unless it
    answers 201 the handler's service is unchanged. *)
Theorem create_transaction_answers
    (hash : string → Z) (account_id : string) (request : TransactionRequest)
    (now : datetime) (self : LedgerHandler) :
  let r := create_transaction hash account_id request now self in
  (status_code r.1 = Some 201%Z ∨ status_code r.1 = Some 400%Z ∨
   status_code r.1 = Some 404%Z) ∧
  (status_code r.1 ≠ Some 201%Z → r.2 = self).
Proof.
  cbv zeta. unfold create_transaction. rewrite process_transaction_eq. cbv zeta.
  destruct self as [service], request as [amount ty d]. simpl.
  destruct (Float.leb amount Float.zero); [simpl; auto|].
  destruct ty; [simpl; split; [auto | intros []; reflexivity]|].
  destruct (_balances service !! account_id) as [b|]; [|simpl; auto].
  destruct (Float.ltb b amount);
    simpl; split; auto; intros []; reflexivity.
Qed.

Lemma create_transaction_answers_witness :
  (create_transaction Examples.hash "acc1"
     (Examples.request WITHDRAWAL (Float.of_int 50)) 0%Z Examples.fresh_handler).2
  = Examples.fresh_handler.
Proof.
  apply (proj2 (create_transaction_answers Examples.hash "acc1"
                  (Examples.request WITHDRAWAL (Float.of_int 50)) 0%Z
                  Examples.fresh_handler)).
  vm_compute. discriminate.
Defined.

(** X6: after the transaction endpoint has answered 201 for an account,
    the balance endpoint answers 200 for that account, and the
    transactions endpoint answers 200 with the former log followed by a
    transaction that carries the posted type, amount and description. *)
Theorem post_then_get
    (hash : string → Z) (account_id : string) (request : TransactionRequest)
    (now : datetime) (self : LedgerHandler) :
  let r := create_transaction hash account_id request now self in
  status_code r.1 = Some 201%Z →
  (∃ b, (endpoints.get_balance account_id r.2).1
        = Response 200%Z {| endpoints.balance := b |}) ∧
  ∃ t, (endpoints.list_transactions account_id r.2).1
       = Response 200%Z
           (default [] (self.(ledgerService).(_transactions) !! account_id) ++ [t]) ∧
       t.(schemas.account_id) = account_id ∧
       t.(schemas.type) = request.(handler.type) ∧
       t.(schemas.amount) = request.(handler.amount) ∧
       t.(schemas.description) = request.(handler.description) ∧
       t.(schemas.timestamp) = now.
Proof.
  cbv zeta. unfold create_transaction.
  destruct self as [service], request as [amount ty d].
  cbn [ledgerService handler.type handler.amount handler.description].
  destruct (process_transaction_outcome hash account_id ty amount d now service)
    as [[e He]|Hok].
  - rewrite He. destruct e; simpl; discriminate.
  - rewrite Hok. intros _.
    unfold endpoints.get_balance, endpoints.list_transactions,
      get_balance, list_transactions, bind, get, ret, recorded.
    cbn [fst snd ledgerService _balances _transactions schemas.account_id requested].
    rewrite !lookup_insert_eq. split; [eauto|].
    eexists. split; [reflexivity|]. simpl. auto.
Qed.

Lemma post_then_get_witness :
  let r := create_transaction Examples.hash "acc1"
             (Examples.request DEPOSIT (Float.of_int 50)) 0%Z
             Examples.fresh_handler in
  (∃ b, (endpoints.get_balance "acc1" r.2).1
        = Response 200%Z {| endpoints.balance := b |}) ∧
  ∃ t, (endpoints.list_transactions "acc1" r.2).1
       = Response 200%Z
           (default []
              (Examples.fresh_handler.(ledgerService).(_transactions) !! "acc1")
            ++ [t]) ∧
       t.(schemas.account_id) = "acc1" ∧
       t.(schemas.type) = (Examples.request DEPOSIT (Float.of_int 50)).(handler.type) ∧
       t.(schemas.amount) = (Examples.request DEPOSIT (Float.of_int 50)).(handler.amount) ∧
       t.(schemas.description)
         = (Examples.request DEPOSIT (Float.of_int 50)).(handler.description) ∧
       t.(schemas.timestamp) = 0%Z.
Proof.
  apply (post_then_get Examples.hash "acc1"
           (Examples.request DEPOSIT (Float.of_int 50)) 0%Z Examples.fresh_handler).
  reflexivity.
Defined.

(** X7: on a service reached by any sequence of operations, the two read
    endpoints answer 404 for an account the run processed no transaction
    for; otherwise they answer 200, with the running total of the
    account's processed transactions as balance and with those
    transactions, in processing order, as list. Neither changes the
    handler. *)
Theorem read_endpoints_after_run
    (hash : string → Z) (ops : list operation) (account_id : string) :
  let self := {| ledgerService := state_after hash ops |} in
  let mine := of_account account_id (processed_in hash ops) in
  (mine = [] →
   status_code (endpoints.get_balance account_id self).1 = Some 404%Z ∧
   status_code (endpoints.list_transactions account_id self).1 = Some 404%Z) ∧
  (mine ≠ [] →
   (endpoints.get_balance account_id self).1
     = Response 200%Z {| endpoints.balance := running_total mine |} ∧
   (endpoints.list_transactions account_id self).1 = Response 200%Z mine) ∧
  (endpoints.get_balance account_id self).2 = self ∧
  (endpoints.list_transactions account_id self).2 = self.
Proof.
  cbv zeta. rewrite (never_processed_iff hash ops account_id).
  destruct (run_inv hash ops) as [Hdom Hlog _ Hbal _].
  specialize (Hdom account_id). specialize (Hlog account_id).
  specialize (Hbal account_id). rewrite <- Hlog.
  unfold endpoints.get_balance, endpoints.list_transactions,
    get_balance, list_transactions, bind, get, ret, raise.
  cbn [ledgerService].
  destruct (_transactions (state_after hash ops) !! account_id) as [l|];
    destruct (_balances (state_after hash ops) !! account_id) as [b|]; simpl.
  - split; [discriminate|]. split; [|split; reflexivity].
    intros _. rewrite (Hbal b eq_refl). split; reflexivity.
  - destruct Hdom as [_ Hd]. discriminate Hd; reflexivity.
  - destruct Hdom as [Hd _]. discriminate Hd; reflexivity.
  - split; [intros _; split; reflexivity|].
    split; [intros []; reflexivity | split; reflexivity].
Qed.

Lemma read_endpoints_after_run_witness :
  let self := {| ledgerService := state_after Examples.hash Examples.big_then_small |} in
  let mine := of_account "acc1" (processed_in Examples.hash Examples.big_then_small) in
  (endpoints.get_balance "acc1" self).1
    = Response 200%Z {| endpoints.balance := running_total mine |} ∧
  (endpoints.list_transactions "acc1" self).1 = Response 200%Z mine.
Proof.
  apply (proj1 (proj2 (read_endpoints_after_run Examples.hash
                         Examples.big_then_small "acc1"))).
  vm_compute. discriminate.
Defined.

(** ** Invariants of runs *)

Lemma state_after_snoc (hash : string → Z) ops op :
  state_after hash (ops ++ [op]) = step hash op (state_after hash ops).
Proof. unfold state_after. rewrite run_snoc. reflexivity. Qed.

Lemma processed_in_snoc (hash : string → Z) ops op :
  processed_in hash (ops ++ [op])
  = processed_in hash ops ++ processed hash op (state_after hash ops).
Proof. unfold processed_in, state_after. rewrite run_snoc. reflexivity. Qed.

Lemma processed_validated (hash : string → Z) op self t :
  t ∈ processed hash op self →
  Float.leb t.(schemas.amount) Float.zero = false.
Proof.
  destruct op as [a ty amount d now|a|a]; unfold processed;
    [|intros Hin; inversion Hin..].
  rewrite _parse_transaction_request_eq, process_transaction_eq. cbv zeta.
  destruct (Float.leb amount Float.zero) eqn:Hle; [intros Hin; inversion Hin|].
  destruct ty.
  - intros ->%list_elem_of_singleton. exact Hle.
  - destruct (_balances self !! a) as [b|]; [|intros Hin; inversion Hin].
    destruct (Float.ltb b amount); [intros Hin; inversion Hin|].
    intros ->%list_elem_of_singleton. exact Hle.
Qed.

(** X8: after any sequence of operations on a fresh service, every
    transaction in an account's log names that account as its owner. *)
Theorem log_entries_belong_to_account
    (hash : string → Z) (ops : list operation) (account_id : string)
    (log : list Transaction) (t : Transaction) :
  (state_after hash ops).(_transactions) !! account_id = Some log →
  t ∈ log →
  t.(schemas.account_id) = account_id.
Proof.
  intros Hlog Hin. destruct (run_inv hash ops) as [_ Hl _ _ _].
  specialize (Hl account_id). rewrite Hlog in Hl. simpl in Hl. subst log.
  unfold of_account in Hin. apply list_elem_of_filter in Hin as [Ht _]. exact Ht.
Qed.

Lemma log_entries_belong_to_account_witness :
  schemas.account_id
    (requested Examples.hash "acc1" DEPOSIT (Float.of_int 50) None 0%Z __init__)
  = "acc1".
Proof.
  apply (log_entries_belong_to_account Examples.hash Examples.one_deposit "acc1"
           [requested Examples.hash "acc1" DEPOSIT (Float.of_int 50) None 0%Z __init__]).
  - vm_compute. reflexivity.
  - apply list_elem_of_singleton. reflexivity.
Defined.

(** X9: after any sequence of operations on a fresh service, every stored
    transaction has an amount that passed the validation: [amount <= 0]
    is false for it. *)
Theorem stored_amounts_passed_validation
    (hash : string → Z) (ops : list operation) (account_id : string)
    (log : list Transaction) (t : Transaction) :
  (state_after hash ops).(_transactions) !! account_id = Some log →
  t ∈ log →
  Float.leb t.(schemas.amount) Float.zero = false.
Proof.
  intros Hlog Hin. destruct (run_inv hash ops) as [_ Hl _ _ _].
  specialize (Hl account_id). rewrite Hlog in Hl. simpl in Hl. subst log.
  unfold of_account in Hin. apply list_elem_of_filter in Hin as [_ Hin].
  clear Hlog. revert t Hin.
  induction ops as [|op ops IH] using rev_ind; intros t Hin.
  - inversion Hin.
  - rewrite processed_in_snoc in Hin. apply elem_of_app in Hin as [Hin|Hin].
    + apply IH, Hin.
    + apply (processed_validated hash op _ t Hin).
Qed.

Lemma stored_amounts_passed_validation_witness :
  Float.leb
    (schemas.amount
       (requested Examples.hash "acc1" DEPOSIT (Float.of_int 50) None 0%Z __init__))
    Float.zero = false.
Proof.
  apply (stored_amounts_passed_validation Examples.hash Examples.one_deposit "acc1"
           [requested Examples.hash "acc1" DEPOSIT (Float.of_int 50) None 0%Z __init__]).
  - vm_compute. reflexivity.
  - apply list_elem_of_singleton. reflexivity.
Defined.

(** X10: logs are append-only and accounts are never removed: whatever
    operations follow, the log an account has now is a prefix of the log
    it has afterwards, and an account that has a balance keeps one. *)
Theorem logs_are_append_only
    (hash : string → Z) (ops more : list operation) (account_id : string)
    (log : list Transaction) :
  (state_after hash ops).(_transactions) !! account_id = Some log →
  (∃ suffix, (state_after hash (ops ++ more)).(_transactions) !! account_id
             = Some (log ++ suffix)) ∧
  (is_Some ((state_after hash ops).(_balances) !! account_id) →
   is_Some ((state_after hash (ops ++ more)).(_balances) !! account_id)).
Proof.
  intros Hlog. induction more as [|op more IH] using rev_ind.
  - rewrite app_nil_r. split; [exists []; rewrite app_nil_r; exact Hlog | auto].
  - rewrite app_assoc, state_after_snoc.
    destruct IH as [[suffix Hs] Hb].
    destruct (step_processed hash op (state_after hash (ops ++ more)))
      as [[-> _]|(t & -> & _ & _)]; [eauto|].
    unfold recorded. simpl.
    destruct (decide (schemas.account_id t = account_id)) as [->|Hne].
    + rewrite !lookup_insert_eq, Hs. simpl. split.
      * exists (suffix ++ [t]). rewrite app_assoc. reflexivity.
      * eauto.
    + rewrite !lookup_insert_ne by done. eauto.
Qed.

Lemma logs_are_append_only_witness :
  let log := [requested Examples.hash "acc1" DEPOSIT (Float.of_int 50) None 0%Z __init__] in
  let more := [Examples.withdraw "acc1" (Float.of_int 20)] in
  (∃ suffix,
     (state_after Examples.hash (Examples.one_deposit ++ more)).(_transactions) !! "acc1"
     = Some (log ++ suffix)) ∧
  (is_Some ((state_after Examples.hash Examples.one_deposit).(_balances) !! "acc1") →
   is_Some ((state_after Examples.hash (Examples.one_deposit ++ more)).(_balances)
              !! "acc1")).
Proof.
  apply (logs_are_append_only Examples.hash Examples.one_deposit
           [Examples.withdraw "acc1" (Float.of_int 20)] "acc1").
  vm_compute. reflexivity.
Defined.

(** X11: after any sequence of operations on a fresh service, the id the
    service would give the next transaction of an account carries the
    number of transactions processed for that account so far, plus one;
    failed calls use up no number. *)
Theorem next_transaction_number
    (hash : string → Z) (ops : list operation) (account_id : string) :
  (_generate_transaction_id hash account_id (state_after hash ops)).1
  = Return (pretty (hash account_id) +:+ "_" +:+
            pretty (length (of_account account_id (processed_in hash ops)) + 1)%nat).
Proof.
  destruct (run_inv hash ops) as [_ Hl _ _ _]. specialize (Hl account_id).
  unfold _generate_transaction_id, bind, get, ret. simpl. rewrite Hl. reflexivity.
Qed.

(** X12: the read operations have no effect on a run: dropping every
    [get_balance] and [list_transactions] from a sequence of operations
    gives the same final service and the same processed transactions. *)
Theorem reads_do_not_matter (hash : string → Z) (ops : list operation) :
  run hash (filter (λ op, is_process op = true) ops) = run hash ops.
Proof.
  induction ops as [|op ops IH] using rev_ind; [reflexivity|].
  rewrite filter_app, run_snoc.
  destruct op as [a ty amount d now|a|a].
  - rewrite filter_cons_True by reflexivity. rewrite filter_nil, run_snoc, IH.
    reflexivity.
  - rewrite filter_cons_False by discriminate. rewrite filter_nil, app_nil_r, IH.
    unfold exec, step, processed, get_balance, bind, get, ret, raise.
    destruct (run hash ops) as [s h]. simpl.
    destruct (_balances s !! a); simpl; rewrite app_nil_r; reflexivity.
  - rewrite filter_cons_False by discriminate. rewrite filter_nil, app_nil_r, IH.
    unfold exec, step, processed, list_transactions, bind, get, ret, raise.
    destruct (run hash ops) as [s h]. simpl.
    destruct (_transactions s !! a); simpl; rewrite app_nil_r; reflexivity.
Qed.

(** ** Independence of accounts *)

Lemma process_transaction_after_other
    (hash : string → Z) a ty amount d now (t : Transaction) self :
  schemas.account_id t ≠ a →
  process_transaction hash a ty amount d now (recorded t self)
  = match process_transaction hash a ty amount d now self with
    | (Return _, _) =>
        (Return tt,
         recorded (requested hash a ty amount d now self) (recorded t self))
    | (Raise e, _) => (Raise e, recorded t self)
    end.
Proof.
  intros Hne. rewrite !process_transaction_eq. cbv zeta.
  assert (Hb : _balances (recorded t self) !! a = _balances self !! a).
  { unfold recorded. simpl. apply lookup_insert_ne. exact Hne. }
  assert (Hr : requested hash a ty amount d now (recorded t self)
               = requested hash a ty amount d now self).
  { unfold requested, recorded. simpl. rewrite lookup_insert_ne by exact Hne.
    reflexivity. }
  rewrite Hb, Hr.
  destruct (Float.leb amount Float.zero); [reflexivity|].
  destruct ty; [reflexivity|].
  destruct (_balances self !! a) as [b|]; [|reflexivity].
  destruct (Float.ltb b amount); reflexivity.
Qed.

Lemma recorded_commute (t1 t2 : Transaction) self :
  schemas.account_id t1 ≠ schemas.account_id t2 →
  recorded t2 (recorded t1 self) = recorded t1 (recorded t2 self).
Proof.
  intros Hne. unfold recorded. simpl.
  rewrite !lookup_insert_ne by congruence.
  f_equal; apply insert_insert_ne; congruence.
Qed.

(** X13: calls on two different accounts commute: in either order each
    call has the same outcome as it has alone, and the service ends in the
    same state. *)
Theorem calls_on_different_accounts_commute
    (hash : string → Z)
    (a1 : string) (ty1 : TransactionType) (amount1 : float)
    (d1 : option string) (now1 : datetime)
    (a2 : string) (ty2 : TransactionType) (amount2 : float)
    (d2 : option string) (now2 : datetime)
    (self : LedgerService) :
  a1 ≠ a2 →
  let p1 := process_transaction hash a1 ty1 amount1 d1 now1 in
  let p2 := process_transaction hash a2 ty2 amount2 d2 now2 in
  (p2 (p1 self).2).1 = (p2 self).1 ∧
  (p1 (p2 self).2).1 = (p1 self).1 ∧
  (p2 (p1 self).2).2 = (p1 (p2 self).2).2.
Proof.
  intros Hne. cbv zeta.
  destruct (process_transaction_outcome hash a1 ty1 amount1 d1 now1 self)
    as [[e1 H1]|H1];
    destruct (process_transaction_outcome hash a2 ty2 amount2 d2 now2 self)
      as [[e2 H2]|H2];
    rewrite ?H1, ?H2; cbn [fst snd];
    rewrite ?process_transaction_after_other by (simpl; congruence);
    rewrite ?H1, ?H2; cbn [fst snd]; repeat split.
  apply recorded_commute. simpl. exact Hne.
Qed.

Lemma calls_on_different_accounts_commute_witness :
  let p1 := process_transaction Examples.hash "acc1" DEPOSIT (Float.of_int 50) None 0%Z in
  let p2 := process_transaction Examples.hash "acc2" WITHDRAWAL (Float.of_int 5) None 1%Z in
  (p2 (p1 __init__).2).1 = (p2 __init__).1 ∧
  (p1 (p2 __init__).2).1 = (p1 __init__).1 ∧
  (p2 (p1 __init__).2).2 = (p1 (p2 __init__).2).2.
Proof.
  apply (calls_on_different_accounts_commute Examples.hash
           "acc1" DEPOSIT (Float.of_int 50) None 0%Z
           "acc2" WITHDRAWAL (Float.of_int 5) None 1%Z __init__).
  discriminate.
Defined.

(** ** The private steps of recording *)

(** X14: [_setup_account_if_not_exists] always returns, gives the account
    an entry in both maps, never overwrites a log or a balance that is
    already there (a missing log becomes the empty list, a missing balance
    [0.0]), and touches no other account. *)
Theorem setup_keeps_existing_entries (account_id : string) (self : LedgerService) :
  let r := _setup_account_if_not_exists account_id self in
  r.1 = Return tt ∧
  r.2.(_transactions) !! account_id
    = Some (default [] (self.(_transactions) !! account_id)) ∧
  r.2.(_balances) !! account_id
    = Some (default Float.zero (self.(_balances) !! account_id)) ∧
  ∀ other, other ≠ account_id →
    r.2.(_transactions) !! other = self.(_transactions) !! other ∧
    r.2.(_balances) !! other = self.(_balances) !! other.
Proof.
  cbv zeta. unfold _setup_account_if_not_exists, bind, get, put. simpl.
  destruct (_transactions self !! account_id) as [log|] eqn:Ht;
    destruct (_balances self !! account_id) as [b|] eqn:Hb; simpl;
    rewrite ?lookup_insert_eq, ?Ht, ?Hb; repeat split;
    rewrite ?lookup_insert_ne by done; reflexivity.
Qed.

(** X15: [_record_transaction] needs the account to be set up. Without a
    log for the account it raises [KeyError] and changes nothing; with a
    log but without a balance it raises [KeyError] after the transaction
    has been appended to the log. *)
Theorem record_without_setup (t : Transaction) (self : LedgerService) :
  let k := t.(schemas.account_id) in
  (self.(_transactions) !! k = None →
   _record_transaction t self = (Raise (KeyError k), self)) ∧
  (∀ log, self.(_transactions) !! k = Some log →
          self.(_balances) !! k = None →
          _record_transaction t self
          = (Raise (KeyError k),
             {| _transactions := <[k := log ++ [t]]> (self.(_transactions));
                _balances := self.(_balances) |})).
Proof.
  cbv zeta. unfold _record_transaction, append_transaction, update_balance,
    bind, get, put, raise. simpl. split.
  - intros ->. reflexivity.
  - intros log -> Hb. simpl. destruct (schemas.type t); simpl; rewrite Hb; reflexivity.
Qed.

Lemma record_without_setup_witness :
  _record_transaction
    (requested Examples.hash "acc1" DEPOSIT (Float.of_int 50) None 0%Z __init__)
    __init__
  = (Raise (KeyError "acc1"), __init__).
Proof.
  apply (proj1 (record_without_setup
                  (requested Examples.hash "acc1" DEPOSIT (Float.of_int 50) None 0%Z
                     __init__) __init__)).
  reflexivity.
Defined.

(** ** Amounts and balances that are not numbers *)

Lemma float_ltb_nan_r (x : float) : Float.ltb x nan = false.
Proof. destruct x as [s|s| |s m e]; reflexivity. Qed.

Lemma float_add_nan_r (x : float) : Float.add x nan = nan.
Proof. destruct x as [s|s| |s m e]; reflexivity. Qed.

Lemma float_sub_nan_r (x : float) : Float.sub x nan = nan.
Proof. destruct x as [s|s| |s m e]; reflexivity. Qed.

(** X16: the validation lets NaN through, since [nan <= 0] is false: a
    deposit of NaN is accepted in any state, a withdrawal of NaN is
    accepted for any account that has a balance, and either leaves the
    account with balance NaN. *)
Theorem nan_amount_is_accepted
    (hash : string → Z) (account_id : string) (ty : TransactionType)
    (description : option string) (now : datetime) (self : LedgerService) :
  (ty = WITHDRAWAL → is_Some (self.(_balances) !! account_id)) →
  let r := process_transaction hash account_id ty nan description now self in
  r.1 = Return tt ∧ r.2.(_balances) !! account_id = Some nan.
Proof.
  intros Hex. cbv zeta. rewrite process_transaction_eq. cbv zeta.
  change (Float.leb nan Float.zero) with false. cbv iota.
  destruct ty.
  - unfold recorded, apply_transaction. simpl. rewrite lookup_insert_eq.
    split; [reflexivity|]. f_equal. apply float_add_nan_r.
  - destruct (Hex eq_refl) as [b Hb]. rewrite Hb, float_ltb_nan_r.
    unfold recorded, apply_transaction. simpl. rewrite lookup_insert_eq.
    split; [reflexivity|]. f_equal. apply float_sub_nan_r.
Qed.

Lemma nan_amount_is_accepted_witness :
  let r := process_transaction Examples.hash "acc1" WITHDRAWAL nan None 0%Z
             (state_after Examples.hash Examples.one_deposit) in
  r.1 = Return tt ∧ r.2.(_balances) !! "acc1" = Some nan.
Proof.
  apply (nan_amount_is_accepted Examples.hash "acc1" WITHDRAWAL None 0%Z
           (state_after Examples.hash Examples.one_deposit)).
  intros _. vm_compute. eexists. reflexivity.
Defined.

(** X17: once an account's balance is NaN the funds check no longer
    rejects anything, since [nan < amount] is false: every withdrawal
    whose amount passes the validation is accepted, and the balance stays
    NaN. Such a balance arises from ordinary floats: deposit infinity,
    then withdraw infinity. *)
Theorem nan_balance_accepts_every_withdrawal
    (hash : string → Z) (account_id : string) (amount : float)
    (description : option string) (now : datetime) (self : LedgerService) :
  self.(_balances) !! account_id = Some nan →
  Float.leb amount Float.zero = false →
  let r := process_transaction hash account_id WITHDRAWAL amount description now self in
  r.1 = Return tt ∧ r.2.(_balances) !! account_id = Some nan.
Proof.
  intros Hb Hle. cbv zeta. rewrite process_transaction_eq. cbv zeta.
  rewrite Hle, Hb. change (Float.ltb nan amount) with false. cbv iota.
  unfold recorded, apply_transaction. simpl. rewrite lookup_insert_eq, Hb.
  split; reflexivity.
Qed.

Lemma nan_balance_accepts_every_withdrawal_witness :
  let self := state_after Examples.hash
                [Examples.deposit "acc1" inf; Examples.withdraw "acc1" inf] in
  let r := process_transaction Examples.hash "acc1" WITHDRAWAL
             (Float.of_int 1000000) None 0%Z self in
  r.1 = Return tt ∧ r.2.(_balances) !! "acc1" = Some nan.
Proof.
  apply (nan_balance_accepts_every_withdrawal Examples.hash "acc1"
           (Float.of_int 1000000) None 0%Z
           (state_after Examples.hash
              [Examples.deposit "acc1" inf; Examples.withdraw "acc1" inf])).
  - vm_compute. reflexivity.
  - reflexivity.
Defined.

(** ** Rounding keeps floats well-formed and keeps their sign *)

Section FloatRounding.
Local Open Scope Z_scope.

Lemma digits2_pos_log2 (p : positive) :
  Z.pos (digits2_pos p) = Z.log2 (Z.pos p) + 1.
Proof.
  induction p as [p IH|p IH|]; simpl digits2_pos.
  - rewrite Pos2Z.inj_succ, IH.
    change (Z.pos p~1) with (2 * Z.pos p + 1).
    rewrite Z.log2_succ_double by lia. lia.
  - rewrite Pos2Z.inj_succ, IH.
    change (Z.pos p~0) with (2 * Z.pos p).
    rewrite Z.log2_double by lia. lia.
  - reflexivity.
Qed.

Lemma Zdigits2_pos (m : Z) : 0 < m → Zdigits2 m = Z.log2 m + 1.
Proof. destruct m as [|p|p]; try lia. intros _. apply digits2_pos_log2. Qed.

Lemma Zdigits2_nonneg (m : Z) : 0 <= Zdigits2 m.
Proof. destruct m; simpl; lia. Qed.

Lemma Zdigits2_shiftr (m n : Z) :
  0 <= m → 0 <= n → Zdigits2 (Z.shiftr m n) = Z.max 0 (Zdigits2 m - n).
Proof.
  intros Hm Hn. destruct (Z.eq_dec m 0) as [->|Hm0].
  { rewrite Z.shiftr_0_l. simpl. lia. }
  rewrite (Zdigits2_pos m) by lia.
  destruct (Z.lt_ge_cases (Z.log2 m) n) as [Hlt|Hge].
  - rewrite Z.shiftr_eq_0 by lia. simpl. lia.
  - assert (Hpos : 0 < Z.shiftr m n).
    { pose proof (proj2 (Z.shiftr_nonneg m n) Hm).
      destruct (Z.eq_dec (Z.shiftr m n) 0) as [H0|]; [|lia].
      apply Z.shiftr_eq_0_iff in H0. lia. }
    rewrite (Zdigits2_pos _ Hpos), Z.log2_shiftr by lia. lia.
Qed.

Lemma Zdigits2_succ (m : Z) :
  0 <= m → Zdigits2 m <= Zdigits2 (m + 1) <= Zdigits2 m + 1.
Proof.
  intros Hm. destruct (Z.eq_dec m 0) as [->|Hm0]; [simpl; lia|].
  rewrite !Zdigits2_pos by lia.
  pose proof (Z.log2_succ_le m). pose proof (Z.log2_le_mono m (m + 1)).
  unfold Z.succ in *. lia.
Qed.

Lemma shr_1_m (mrs : shr_record) :
  0 <= shr_m mrs → shr_m (shr_1 mrs) = Z.shiftr (shr_m mrs) 1.
Proof.
  destruct mrs as [m r s]. simpl. rewrite <- Z.div2_spec.
  destruct m as [|[p|p|]|p]; simpl; try reflexivity; lia.
Qed.

Lemma iter_pos_shr_1_m (p : positive) (mrs : shr_record) :
  0 <= shr_m mrs →
  shr_m (SpecFloat.iter_pos shr_1 p mrs) = Z.shiftr (shr_m mrs) (Z.pos p).
Proof.
  revert mrs. induction p as [p IH|p IH|]; intros mrs Hm; simpl SpecFloat.iter_pos.
  - assert (H1 : 0 <= shr_m (shr_1 mrs)).
    { rewrite shr_1_m by exact Hm. apply Z.shiftr_nonneg. exact Hm. }
    assert (H2 : 0 <= shr_m (SpecFloat.iter_pos shr_1 p (shr_1 mrs))).
    { rewrite IH by exact H1. apply Z.shiftr_nonneg. exact H1. }
    rewrite IH, IH, shr_1_m by assumption.
    rewrite !Z.shiftr_shiftr by lia. f_equal. lia.
  - assert (H2 : 0 <= shr_m (SpecFloat.iter_pos shr_1 p mrs)).
    { rewrite IH by exact Hm. apply Z.shiftr_nonneg. exact Hm. }
    rewrite IH, IH by assumption.
    rewrite !Z.shiftr_shiftr by lia. f_equal. lia.
  - apply shr_1_m. exact Hm.
Qed.

Lemma shr_record_of_loc_m m l : shr_m (shr_record_of_loc m l) = m.
Proof. destruct l as [|[]]; reflexivity. Qed.

(** What [shr_fexp] does to a non-negative mantissa. *)
Lemma shr_fexp_spec (m e : Z) (l : location) :
  0 <= m →
  let e' := Z.max e (fexp Float.prec Float.emax (Zdigits2 m + e)) in
  shr_m (shr_fexp Float.prec Float.emax m e l).1 = Z.shiftr m (e' - e) ∧
  (shr_fexp Float.prec Float.emax m e l).2 = e'.
Proof.
  intros Hm. cbv zeta. unfold shr_fexp, shr.
  destruct (fexp Float.prec Float.emax (Zdigits2 m + e) - e) as [|p|p] eqn:Hn; simpl.
  - rewrite shr_record_of_loc_m. replace (Z.max _ _ - e) with 0 by lia.
    rewrite Z.shiftr_0_r. split; [reflexivity | lia].
  - rewrite iter_pos_shr_1_m by (rewrite shr_record_of_loc_m; exact Hm).
    rewrite shr_record_of_loc_m. split; [f_equal; lia | lia].
  - rewrite shr_record_of_loc_m. replace (Z.max _ _ - e) with 0 by lia.
    rewrite Z.shiftr_0_r. split; [reflexivity | lia].
Qed.

Lemma round_nearest_even_cases m l :
  round_nearest_even m l = m ∨ round_nearest_even m l = m + 1.
Proof.
  destruct l as [|[]]; simpl; auto. destruct (Z.even m); auto.
Qed.

Lemma fexp_eq k : fexp Float.prec Float.emax k = Z.max (k - 53) (-1074).
Proof. reflexivity. Qed.

(** Rounding a mantissa whose exponent is not above the canonical one
    gives a well-formed number. *)
Lemma binary_round_aux_valid (sx : bool) (mx ex : Z) (lx : location) :
  0 <= mx →
  ex <= fexp Float.prec Float.emax (Zdigits2 mx + ex) →
  valid_binary Float.prec Float.emax (binary_round_aux Float.prec Float.emax sx mx ex lx) = true.
Proof.
  intros Hm Hex. unfold binary_round_aux.
  destruct (shr_fexp_spec mx ex lx Hm) as [Hm1 He1]. cbv zeta in *.
  destruct (shr_fexp Float.prec Float.emax mx ex lx) as [mrs' e'] eqn:Hs1. simpl in Hm1, He1.
  set (m1 := round_nearest_even (shr_m mrs') (loc_of_shr_record mrs')).
  assert (Hm' : 0 <= shr_m mrs') by (rewrite Hm1; apply Z.shiftr_nonneg; exact Hm).
  assert (Hm1' : 0 <= m1).
  { destruct (round_nearest_even_cases (shr_m mrs') (loc_of_shr_record mrs'));
      unfold m1; lia. }
  destruct (shr_fexp_spec m1 e' loc_Exact Hm1') as [Hm2 He2]. cbv zeta in *.
  destruct (shr_fexp Float.prec Float.emax m1 e' loc_Exact) as [mrs'' e''] eqn:Hs2.
  simpl in Hm2, He2.
  destruct (shr_m mrs'') as [|m|m] eqn:Hm''; [reflexivity| |reflexivity].
  destruct (Z.leb e'' (Float.emax - Float.prec)) eqn:Hle; [|reflexivity].
  simpl. unfold bounded, canonical_mantissa. rewrite Hle, andb_true_r.
  apply Z.eqb_eq.
  change (Z.pos (digits2_pos m)) with (Zdigits2 (Z.pos m)).
  rewrite <- He2 in Hm2. rewrite <- He1 in Hm1.
  assert (Hpos : 0 < Zdigits2 (Z.shiftr m1 (e'' - e'))).
  { rewrite <- Hm2. simpl. lia. }
  rewrite Hm2.
  assert (Hd1 : Zdigits2 (shr_m mrs') = Z.max 0 (Zdigits2 mx - (e' - ex))).
  { rewrite Hm1. apply Zdigits2_shiftr; lia. }
  assert (Hd2 : Zdigits2 (shr_m mrs') <= Zdigits2 m1 <= Zdigits2 (shr_m mrs') + 1).
  { destruct (round_nearest_even_cases (shr_m mrs') (loc_of_shr_record mrs')) as [H|H];
      unfold m1; rewrite H; [lia | apply Zdigits2_succ; exact Hm']. }
  rewrite Zdigits2_shiftr by lia.
  pose proof (Zdigits2_nonneg mx). pose proof (Zdigits2_nonneg m1).
  rewrite Zdigits2_shiftr in Hpos by lia.
  rewrite fexp_eq in *. lia.
Qed.

Lemma iter_xO_digits (m d : positive) :
  Z.pos (digits2_pos (Pos.iter xO m d)) = Z.pos (digits2_pos m) + Z.pos d.
Proof.
  induction d as [|d IH] using Pos.peano_ind.
  - simpl. lia.
  - rewrite Pos.iter_succ. simpl digits2_pos. rewrite Pos2Z.inj_succ, IH. lia.
Qed.

Lemma iter_xO_value (m d : positive) :
  Z.pos (Pos.iter xO m d) = Z.pos m * 2 ^ Z.pos d.
Proof.
  induction d as [|d IH] using Pos.peano_ind.
  - simpl. lia.
  - rewrite Pos.iter_succ, Pos2Z.inj_succ, Z.pow_succ_r by lia.
    change (Z.pos (Pos.iter xO m d)~0) with (2 * Z.pos (Pos.iter xO m d)).
    rewrite IH. lia.
Qed.

Lemma binary_round_valid (sx : bool) (mx : positive) (ex : Z) :
  valid_binary Float.prec Float.emax (binary_round Float.prec Float.emax sx mx ex) = true.
Proof.
  unfold binary_round, shl_align.
  destruct (fexp Float.prec Float.emax (Z.pos (digits2_pos mx) + ex) - ex) as [|d|d] eqn:Hd.
  - apply binary_round_aux_valid; [lia|]. simpl Zdigits2. lia.
  - apply binary_round_aux_valid; [lia|]. simpl Zdigits2. lia.
  - apply binary_round_aux_valid; [lia|]. simpl Zdigits2.
    rewrite iter_xO_digits.
    replace (Z.pos (digits2_pos mx) + Z.pos d
             + fexp Float.prec Float.emax (Z.pos (digits2_pos mx) + ex))
      with (Z.pos (digits2_pos mx) + ex) by lia.
    lia.
Qed.

Lemma binary_normalize_valid (m e : Z) (szero : bool) :
  valid_binary Float.prec Float.emax (binary_normalize Float.prec Float.emax m e szero) = true.
Proof. destruct m; [reflexivity | apply binary_round_valid..]. Qed.

Lemma SFadd_valid (x y : spec_float) :
  valid_binary Float.prec Float.emax x = true → valid_binary Float.prec Float.emax y = true →
  valid_binary Float.prec Float.emax (SFadd Float.prec Float.emax x y) = true.
Proof.
  intros Hx Hy.
  destruct x as [sx|sx| |sx mx ex], y as [sy|sy| |sy my ey];
    try (unfold SFadd; apply binary_normalize_valid);
    try destruct sx; try destruct sy; simpl; try assumption; reflexivity.
Qed.

Lemma SFsub_valid (x y : spec_float) :
  valid_binary Float.prec Float.emax x = true → valid_binary Float.prec Float.emax y = true →
  valid_binary Float.prec Float.emax (SFsub Float.prec Float.emax x y) = true.
Proof.
  intros Hx Hy.
  destruct x as [sx|sx| |sx mx ex], y as [sy|sy| |sy my ey];
    try (unfold SFsub; apply binary_normalize_valid);
    try destruct sx; try destruct sy; simpl; try assumption; reflexivity.
Qed.

(** A rounded non-negative number is not negative. *)
Lemma binary_round_aux_not_negative (mx ex : Z) (lx : location) :
  SFltb (binary_round_aux Float.prec Float.emax false mx ex lx) (S754_zero false) = false.
Proof.
  unfold binary_round_aux.
  destruct (shr_fexp Float.prec Float.emax mx ex lx) as [mrs' e'].
  destruct (shr_fexp Float.prec Float.emax _ e' loc_Exact) as [mrs'' e''].
  destruct (shr_m mrs''); try reflexivity.
  destruct (Z.leb e'' (Float.emax - Float.prec)); reflexivity.
Qed.

Lemma binary_normalize_not_negative (m e : Z) :
  0 <= m →
  SFltb (binary_normalize Float.prec Float.emax m e false) (S754_zero false) = false.
Proof.
  destruct m as [|p|p]; [reflexivity| |lia]. intros _.
  unfold binary_normalize, binary_round.
  destruct (shl_align p e _). apply binary_round_aux_not_negative.
Qed.

Lemma SFadd_not_negative (b x : spec_float) :
  SFltb b (S754_zero false) = false →
  SFleb x (S754_zero false) = false →
  SFltb (SFadd Float.prec Float.emax b x) (S754_zero false) = false.
Proof.
  intros Hb Hx.
  destruct b as [sb|sb| |sb mb eb], x as [sx|sx| |sx mx ex];
    try destruct sb; try destruct sx; try discriminate Hb; try discriminate Hx;
    try reflexivity.
  unfold SFadd. apply binary_normalize_not_negative. simpl. lia.
Qed.

Lemma digits2_bounds (m : positive) :
  2 ^ (Z.pos (digits2_pos m) - 1) <= Z.pos m < 2 ^ Z.pos (digits2_pos m).
Proof.
  rewrite digits2_pos_log2.
  pose proof (Z.log2_spec (Z.pos m) ltac:(lia)) as H.
  replace (Z.log2 (Z.pos m) + 1 - 1) with (Z.log2 (Z.pos m)) by lia.
  exact H.
Qed.

Lemma SFsub_not_negative (b x : spec_float) :
  valid_binary Float.prec Float.emax b = true → valid_binary Float.prec Float.emax x = true →
  SFltb b (S754_zero false) = false →
  SFleb x (S754_zero false) = false →
  SFltb b x = false →
  SFltb (SFsub Float.prec Float.emax b x) (S754_zero false) = false.
Proof.
  intros Vb Vx Hb Hx Hlt.
  destruct b as [sb|sb| |sb mb eb], x as [sx|sx| |sx mx ex];
    try destruct sb; try destruct sx; try discriminate Hb; try discriminate Hx;
    try discriminate Hlt; try reflexivity.
  unfold SFsub. apply binary_normalize_not_negative.
  simpl in Vb, Vx. unfold bounded, canonical_mantissa in Vb, Vx.
  apply andb_true_iff in Vb as [Vb _]. apply andb_true_iff in Vx as [Vx _].
  apply Z.eqb_eq in Vb, Vx. rewrite fexp_eq in Vb, Vx.
  pose proof (digits2_bounds mb) as [Hb1 Hb2].
  pose proof (digits2_bounds mx) as [Hx1 Hx2].
  unfold SFltb, SFcompare in Hlt. unfold shl_align. simpl cond_Zopp.
  destruct (Z.compare_spec eb ex) as [Heq|Hl|Hg]; [| discriminate Hlt |].
  - subst ex. rewrite Z.min_id, Z.sub_diag. cbv beta iota. cbn [fst].
    destruct (Pos.compare_cont Eq mb mx) eqn:Hc; try discriminate Hlt.
    + apply Pos.compare_eq in Hc. lia.
    + change (Pos.compare_cont Eq mb mx) with (Pos.compare mb mx) in Hc.
      apply Pos.compare_gt_iff in Hc. lia.
  - rewrite Z.min_r by lia. rewrite Z.sub_diag.
    destruct (ex - eb) as [|d|d] eqn:Hd; try lia. simpl fst.
    rewrite iter_xO_value.
    assert (Hdb : Z.pos (digits2_pos mb) = 53) by lia.
    assert (Hdx : Z.pos (digits2_pos mx) <= 53) by lia.
    rewrite Hdb in Hb1. simpl in Hb1.
    assert (Z.pos mx < 2 ^ 53).
    { eapply Z.lt_le_trans; [exact Hx2|]. apply Z.pow_le_mono_r; lia. }
    assert (2 ^ 1 <= 2 ^ Z.pos d) by (apply Z.pow_le_mono_r; lia).
    change (2 ^ 52) with 4503599627370496 in Hb1.
    change (2 ^ 53) with 9007199254740992 in *. change (2 ^ 1) with 2 in *.
    nia.
Qed.
End FloatRounding.

Lemma float_add_valid (x y : float) :
  Float.valid x = true → Float.valid y = true → Float.valid (Float.add x y) = true.
Proof. apply SFadd_valid. Qed.

Lemma float_sub_valid (x y : float) :
  Float.valid x = true → Float.valid y = true → Float.valid (Float.sub x y) = true.
Proof. apply SFsub_valid. Qed.

Lemma float_add_not_negative (b x : float) :
  not_negative b → Float.leb x Float.zero = false → not_negative (Float.add b x).
Proof. apply SFadd_not_negative. Qed.

Lemma float_sub_not_negative (b x : float) :
  Float.valid b = true → Float.valid x = true →
  not_negative b → Float.leb x Float.zero = false → Float.ltb b x = false →
  not_negative (Float.sub b x).
Proof. apply SFsub_not_negative. Qed.

(** ** Balances are never negative *)

Lemma step_cases (hash : string → Z) op self :
  step hash op self = self ∨
  ∃ a ty amount d now,
    op = ProcessTransaction a ty amount d now ∧
    step hash op self = recorded (requested hash a ty amount d now self) self ∧
    Float.leb amount Float.zero = false ∧
    (ty = WITHDRAWAL →
     ∃ b, self.(_balances) !! a = Some b ∧ Float.ltb b amount = false).
Proof.
  destruct op as [a ty amount d now|a|a]; unfold step.
  - rewrite process_transaction_eq. cbv zeta.
    destruct (Float.leb amount Float.zero) eqn:Hle; [left; reflexivity|].
    destruct ty.
    + right. exists a, DEPOSIT, amount, d, now.
      split; [reflexivity|]. split; [reflexivity|]. split; [exact Hle|].
      discriminate.
    + destruct (_balances self !! a) as [b|] eqn:Hb; [|left; reflexivity].
      destruct (Float.ltb b amount) eqn:Hlt; [left; reflexivity|].
      right. exists a, WITHDRAWAL, amount, d, now.
      split; [reflexivity|]. split; [reflexivity|]. split; [exact Hle|].
      intros _. eauto.
  - left. unfold get_balance, bind, get. destruct (_balances self !! a); reflexivity.
  - left. unfold list_transactions, bind, get.
    destruct (_transactions self !! a); reflexivity.
Qed.

Lemma balances_valid_not_negative (hash : string → Z) ops :
  Forall (λ op, valid_amount op = true) ops →
  ∀ k b, (state_after hash ops).(_balances) !! k = Some b →
         Float.valid b = true ∧ not_negative b.
Proof.
  induction ops as [|op ops IH] using rev_ind; intros Hv k b.
  - unfold state_after, run. simpl. rewrite lookup_empty. discriminate.
  - apply Forall_app in Hv as [Hv Hop]. specialize (IH Hv).
    apply (proj1 (Forall_singleton _ _)) in Hop. rewrite state_after_snoc.
    destruct (step_cases hash op (state_after hash ops))
      as [->|(a & ty & amount & d & now & -> & -> & Hle & Hw)]; [apply IH|].
    simpl in Hop. unfold recorded, apply_transaction. simpl.
    destruct (decide (a = k)) as [<-|Hne];
      [|rewrite lookup_insert_ne by exact Hne; apply IH].
    rewrite lookup_insert_eq. intros [= <-].
    assert (H0 : Float.valid (default Float.zero (_balances (state_after hash ops) !! a))
                 = true ∧
                 not_negative (default Float.zero (_balances (state_after hash ops) !! a))).
    { destruct (_balances (state_after hash ops) !! a) as [b0|] eqn:Hb0; simpl.
      - apply (IH a b0 Hb0).
      - split; reflexivity. }
    destruct H0 as [Hv0 Hn0]. destruct ty.
    + split; [apply float_add_valid | apply float_add_not_negative]; assumption.
    + destruct (Hw eq_refl) as (b0 & Hb0 & Hlt). rewrite Hb0 in *. simpl in *.
      split; [apply float_sub_valid | apply float_sub_not_negative]; assumption.
Qed.

(** X18: withdrawals never overdraw. After any sequence of operations on a
    fresh service whose amounts are binary64 numbers, no balance is
    negative: [balance < 0] is false for every account. *)
Theorem balances_never_negative
    (hash : string → Z) (ops : list operation) (account_id : string)
    (balance : float) :
  Forall (λ op, valid_amount op = true) ops →
  (state_after hash ops).(_balances) !! account_id = Some balance →
  Float.ltb balance Float.zero = false.
Proof.
  intros Hv Hb. apply (balances_valid_not_negative hash ops Hv account_id balance Hb).
Qed.

Lemma balances_never_negative_witness :
  Float.ltb (Float.of_int 30) Float.zero = false.
Proof.
  apply (balances_never_negative Examples.hash
           (Examples.one_deposit ++ [Examples.withdraw "acc1" (Float.of_int 20)])
           "acc1" (Float.of_int 30)).
  - repeat constructor.
  - vm_compute. reflexivity.
Defined.
